(** * A learning-planner agent: calendar, repository ranking, SMS, orchestration

    Shallow embedding of [calendar_tool.py], [githubmcptool.py],
    [twilio_tool.py] and [orchestrator.py].

    Conventions of the embedding.
    - A Python function that talks to the outside or logs is a computation in
      the monad [M]: it threads a [World] and ends in [Ok v] (it returned [v])
      or [Raise e] (exception [e] left the function).  [try ... except] is
      [try_except].
    - The outside (Google Calendar, the GitHub search API, the recommendation
      endpoint, Twilio, the chat session of the language model) is a record
      [Services] of state-passing oracles over an arbitrary state [E].
    - Python [str] is [string].  [lower] and [upper] map the ASCII letters
      and leave every other character alone, which is what [str.lower] and
      [str.upper] do on ASCII text ([isascii]); on other text Python follows
      the Unicode case maps, which are outside the model.
    - Python [int] is [Z].  The score of a repository is a Python float
      obtained with [/]; it is embedded as an exact rational ([Q]), so the
      rounding of binary floating point is outside the model.
    - Python dicts received from the model ([call.args]) and the tool registry
      are [gmap]s with [string] keys.
    - [json.dumps] and [str()] are total functions of the outside.
    - [types.Part.from_function_response] (google-genai) builds a
      [FunctionResponse], a pydantic model whose field [response] is declared
      [Optional[dict[str, Any]]]: it takes [None] and a dict and raises
      pydantic's [ValidationError] for every other value. *)

From Stdlib Require Import ZArith QArith Qminmax String Ascii List Sorted Permutation.
From stdpp Require Import base option list gmap strings pretty sorting.

Set Warnings "-register-all".
Local Open Scope Z_scope.
Local Open Scope string_scope.

(** ** Python strings *)

Module PyStr.

Definition is_upper (c : ascii) : bool :=
  (N.leb 65 (N_of_ascii c) && N.leb (N_of_ascii c) 90)%bool.

Definition is_lower (c : ascii) : bool :=
  (N.leb 97 (N_of_ascii c) && N.leb (N_of_ascii c) 122)%bool.

Definition lower_char (c : ascii) : ascii :=
  if is_upper c then ascii_of_N (N_of_ascii c + 32) else c.

Definition upper_char (c : ascii) : ascii :=
  if is_lower c then ascii_of_N (N_of_ascii c - 32) else c.

Fixpoint map_chars (f : ascii -> ascii) (s : string) : string :=
  match s with
  | EmptyString => EmptyString
  | String c s' => String (f c) (map_chars f s')
  end.

(** [s.lower()] and [s.upper()] *)
Definition lower (s : string) : string := map_chars lower_char s.
Definition upper (s : string) : string := map_chars upper_char s.

(** [s.isascii()] *)
Fixpoint isascii (s : string) : bool :=
  match s with
  | EmptyString => true
  | String c s' => (N.ltb (N_of_ascii c) 128 && isascii s')%bool
  end.

(** [needle in hay] on two strings *)
Fixpoint contains (needle hay : string) : bool :=
  match hay with
  | EmptyString => String.prefix needle hay
  | String _ hay' => (String.prefix needle hay || contains needle hay')%bool
  end.

(** [l[:k]] for a list [l] and an int [k]: a negative [k] counts from the
    end of the list. *)
Definition slice_to {A} (l : list A) (k : Z) : list A :=
  if (k <? 0)%Z then firstn (Z.to_nat (Z.of_nat (length l) + k)) l
  else firstn (Z.to_nat k) l.

End PyStr.

(** ** Python values, exceptions and the effect monad *)

(** The values that cross the tool boundary (JSON-like data). *)
Inductive value : Type :=
| VNone
| VBool (b : bool)
| VInt (z : Z)
| VNum (q : Q)
| VStr (s : string)
| VList (l : list value)
| VDict (d : list (string * value)).

Inductive exn_class : Type :=
| RequestException   (* requests.exceptions.RequestException, other subclasses *)
| HTTPError (status_code : Z)   (* requests.exceptions.HTTPError *)
| TypeError
| KeyError
| OtherException.    (* any other subclass of Exception *)

Record exn : Type := Exn { exn_cls : exn_class; exn_str : string }.

Inductive result (A : Type) : Type :=
| Ok (a : A)
| Raise (e : exn).
Arguments Ok {A} a.
Arguments Raise {A} e.

Inductive level : Type := INFO | WARNING | ERROR | CRITICAL.

Record log_record : Type := Log { log_level : level; log_msg : string }.

(** The part of the process state the four files share: the outside, the
    records written through [logging], the Prometheus counter
    [GITHUB_SEARCHES] (one cell per label) and the messages handed to the chat
    session so far. *)
Inductive search_status : Type := success | error.

Record part : Type := Part { part_name : string; part_response : value }.

Inductive message : Type :=
| Prompt (text : string)
| FunctionResponses (parts : list part).

Record World (E : Type) : Type := MkWorld {
  ext : E;
  logs : list log_record;
  GITHUB_SEARCHES : search_status -> nat;
  sent : list message
}.
Arguments MkWorld {E} _ _ _ _.
Arguments ext {E} _.
Arguments logs {E} _.
Arguments GITHUB_SEARCHES {E} _ _.
Arguments sent {E} _.

Definition M (E A : Type) : Type := World E -> result A * World E.

Module Eff.
Section Eff.
Context {E : Type}.

Definition ret {A} (a : A) : M E A := fun w => (Ok a, w).

Definition raise {A} (e : exn) : M E A := fun w => (Raise e, w).

Definition bind {A B} (m : M E A) (k : A -> M E B) : M E B :=
  fun w => match m w with
           | (Ok a, w') => k a w'
           | (Raise e, w') => (Raise e, w')
           end.

(** [try: body  except <classes> as e: handler e]; an exception whose class
    the clause does not name keeps propagating. *)
Definition try_except {A} (body : M E A) (catches : exn -> bool)
    (handler : exn -> M E A) : M E A :=
  fun w => match body w with
           | (Ok a, w') => (Ok a, w')
           | (Raise e, w') => if catches e then handler e w' else (Raise e, w')
           end.

(** an oracle of the outside, lifted to the process state *)
Definition call {A} (f : E -> result A * E) : M E A :=
  fun w => let '(r, e') := f (ext w) in
           (r, MkWorld e' (logs w) (GITHUB_SEARCHES w) (sent w)).

(** [logger.<level>(msg)] *)
Definition logger (l : level) (msg : string) : M E unit :=
  fun w => (Ok tt, MkWorld (ext w) (logs w ++ [Log l msg]) (GITHUB_SEARCHES w) (sent w)).

(** [GITHUB_SEARCHES.labels(status=s).inc()] *)
Definition inc (s : search_status) : M E unit :=
  fun w => (Ok tt,
            MkWorld (ext w) (logs w)
              (fun s' => match s, s' with
                         | success, success | error, error => S (GITHUB_SEARCHES w s')
                         | _, _ => GITHUB_SEARCHES w s'
                         end)
              (sent w)).

(** the chat session remembers what it was sent *)
Definition record_sent (m : message) : M E unit :=
  fun w => (Ok tt, MkWorld (ext w) (logs w) (GITHUB_SEARCHES w) (sent w ++ [m])).

End Eff.
End Eff.

Notation "'do' x <- c ; k" := (Eff.bind c (fun x => k))
  (at level 10, x name, c at level 100, k at level 200).
Notation "'do' ' p <- c ; k" := (Eff.bind c (fun x => match x with p => k end))
  (at level 10, p pattern, c at level 100, k at level 200).
Notation "c ;; k" := (Eff.bind c (fun _ => k))
  (at level 100, k at level 200, right associativity).

(** [except Exception] and [except requests.exceptions.RequestException] *)
Definition Exception (e : exn) : bool := true.

Definition is_RequestException (e : exn) : bool :=
  match exn_cls e with RequestException | HTTPError _ => true | _ => false end.

Definition is_HTTPError (e : exn) : bool :=
  match exn_cls e with HTTPError _ => true | _ => false end.

(** Truth value of an [Optional[str]], as [if x:], [not x] and [all([...])]
    take it: [None] and the empty string are false. *)
Definition truthy (o : option string) : bool :=
  match o with
  | Some s => negb (String.eqb s "")
  | None => false
  end.

(** [a or b] *)
Definition py_or (a b : option string) : option string :=
  if truthy a then a else b.

(** [raise ValueError(msg)]; [ValueError] is one of the other subclasses of
    [Exception]. *)
Definition ValueError (msg : string) : exn := Exn OtherException msg.

(** ** Data exchanged with the outside *)

(** [datetime.datetime], in UTC *)
Record datetime : Type := DateTime {
  year : Z; month : Z; day : Z;
  hour : Z; minute : Z; second : Z; microsecond : Z
}.

(** One item of the Calendar API's [events().list()] reply; [None] is a key
    that is absent from the dict. *)
Record event_start : Type := EventStart {
  dateTime : option string;
  date : option string
}.

Record calendar_event : Type := CalendarEvent {
  summary : option string;
  start : option event_start;
  htmlLink : option string
}.

Record events_result : Type := EventsResult { items : option (list calendar_event) }.

(** The keyword arguments of [events().list(...)]; the two bounds are handed
    over as the [datetime]s whose [isoformat()] the source passes. *)
Record events_query : Type := EventsQuery {
  calendarId : string;
  timeMin : datetime;
  timeMax : datetime;
  singleEvents : bool;
  orderBy : string
}.

(** One item of GitHub's repository search; [None] is an absent key, for
    [description] and [language] also a JSON [null]. *)
Record repo : Type := Repo {
  full_name : option string;
  html_url : option string;
  description : option string;
  stargazers_count : option Z;
  forks_count : option Z;
  language : option string;
  has_wiki : option bool;
  updated_at : option string
}.

Record search_params : Type := SearchParams {
  q : string; sort : string; order : string; per_page : Z
}.

Record search_request : Type := SearchRequest {
  search_url : string;
  search_headers : list (string * string);
  search_query : search_params
}.

(** [requests.Response] of the search: [search_json] is what [.json()] does,
    [.get('items', [])] reads [search_items]. *)
Record search_body : Type := SearchBody { search_items : option (list repo) }.

Record search_response : Type := SearchResponse {
  search_status_code : Z;
  search_json : result search_body
}.

(** [requests.Response] of the recommendation endpoint, as the orchestrator's
    client sees it. *)
Record mcp_response : Type := McpResponse {
  mcp_status_code : Z;
  mcp_json : result value
}.

Record tool_call : Type := ToolCall { name : string; args : gmap string value }.

(** [GenerateContentResponse]: [function_calls] is empty when the reply holds
    none, [text] is [None] when the reply has no text. *)
Record response : Type := Response {
  function_calls : list tool_call;
  text : option string
}.

(** The outside.  [str_of] is Python's [str()] on the values the model
    supplies, [json_dumps] is [json.dumps], [validation_error] is the text
    of the [ValidationError] pydantic raises for a [response] it refuses. *)
Record Services (E : Type) : Type := {
  utcnow : E -> datetime;
  events_list_execute : events_query -> E -> result events_result * E;
  github_get : search_request -> E -> result search_response * E;
  mcp_get : string -> value -> value -> E -> result mcp_response * E;
  messages_create : value -> string -> value -> E -> result string * E;
  chats_create : string -> string -> list string -> E -> result unit * E;
  send_message : message -> E -> result response * E;
  str_of : value -> string;
  json_dumps : value -> string;
  validation_error : value -> string
}.
Arguments utcnow {E} _ _.
Arguments events_list_execute {E} _ _ _.
Arguments github_get {E} _ _ _.
Arguments mcp_get {E} _ _ _ _ _.
Arguments messages_create {E} _ _ _ _ _.
Arguments chats_create {E} _ _ _ _ _.
Arguments send_message {E} _ _ _.
Arguments str_of {E} _ _.
Arguments json_dumps {E} _ _.
Arguments validation_error {E} _ _.

(** ** google.genai.types *)

Module types.

(** what the field [response : Optional[dict[str, Any]]] takes *)
Definition is_response (v : value) : bool :=
  match v with
  | VNone | VDict _ => true
  | _ => false
  end.

(** pydantic's [ValidationError], a [ValueError] *)
Definition ValidationError {E} (sv : Services E) (response : value) : exn :=
  Exn OtherException (validation_error sv response).

Module Part.

(** [types.Part.from_function_response(name=..., response=...)] *)
Definition from_function_response {E} (sv : Services E) (name : string) (response : value)
  : M E part :=
  if is_response response then Eff.ret (Part name response)
  else Eff.raise (ValidationError sv response).

End Part.
End types.

(** ** githubmcptool.py *)

Module GitHubMcpTool.

(** the dict [analyze_repository] returns *)
Record analyzed : Type := Analyzed {
  a_name : option string;
  a_url : option string;
  a_description : option string;
  a_stars : Z;
  a_forks : Z;
  a_language : option string;
  a_score : Q;
  a_updated_at : option string
}.

Record t : Type := Tool {
  github_token : option string;
  base_url : string;
  headers : list (string * string)
}.

(** [__init__(self, github_token=None)]: the token is read from the
    environment variable [GITHUB_TOKEN]; the parameter is not used. *)
Definition init {E} (github_token : option string) (GITHUB_TOKEN : option string) : M E t :=
  let self_github_token := GITHUB_TOKEN in
  let headers := [("Accept", "application/vnd.github.v3+json")] in
  if truthy self_github_token then
    let authorization := "token " ++ default "" self_github_token in
    let headers := (headers ++ [("Authorization", authorization)])%list in
    Eff.logger INFO "GitHUbMcpTool initialized with token";;
    Eff.ret (Tool self_github_token "https://api.github.com" headers)
  else
    Eff.logger WARNING "Github_Token not found.";;
    Eff.ret (Tool self_github_token "https://api.github.com" headers).

Definition hands_on_keywords : list string :=
  ["tutorial"; "example"; "hands-on"; "practical"; "guide"; "workshop"; "project"].

(** [x / 100] on an int *)
Definition div100 (x : Z) : Q := (inject_Z x / 100)%Q.

(** the [for keyword in hands_on_keywords] loop, on the running score *)
Fixpoint add_keywords (kws : list string) (descr : string) (score : Q) : Q :=
  match kws with
  | [] => score
  | keyword :: kws' =>
      add_keywords kws' descr
        (if PyStr.contains keyword descr then (score + 5)%Q else score)
  end.

Definition score_of (r : repo) : Q :=
  let score := 0%Q in
  let score := (score + Qmin (div100 (default 0%Z (stargazers_count r))) 50)%Q in
  let score := (score + Qmin (div100 (default 0%Z (forks_count r))) 20)%Q in
  let descr := PyStr.lower (default "" (description r)) in
  let score := add_keywords hands_on_keywords descr score in
  let score := if default false (has_wiki r) then (score + 5)%Q else score in
  let score :=
    if PyStr.contains "README" (PyStr.upper descr) then (score + 5)%Q else score in
  score.

Definition analyze_repository (r : repo) : analyzed :=
  {| a_name := full_name r;
     a_url := html_url r;
     a_description := description r;
     a_stars := default 0 (stargazers_count r);
     a_forks := default 0 (forks_count r);
     a_language := language r;
     a_score := score_of r;
     a_updated_at := updated_at r |}.

Definition tech_keywords : list string :=
  ["python"; "javascript"; "java"; "react"; "node"; "ai"; "ml";
   "agent"; "llm"; "langchain"; "api"; "web"; "cloud"; "docker";
   "kubernetes"; "tensorflow"; "pytorch"; "django"; "flask"].

Definition _extract_keywords (text : string) : list string :=
  let text_lower := PyStr.lower text in
  filter (fun kw => PyStr.contains kw text_lower = true) tech_keywords.

(** [sorted(l, key=key, reverse=True)]: the stable sort of [l] by
    decreasing key.  An element is put in front of the first one whose key
    is not greater, so that equal keys keep the order they came in. *)
Fixpoint insert_desc {A} (key : A -> Q) (x : A) (l : list A) : list A :=
  match l with
  | [] => [x]
  | y :: l' => if Qle_bool (key y) (key x) then x :: y :: l'
               else y :: insert_desc key x l'
  end.

Fixpoint sorted_desc {A} (key : A -> Q) (l : list A) : list A :=
  match l with
  | [] => []
  | x :: l' => insert_desc key x (sorted_desc key l')
  end.

Section Methods.
Context {E : Type} (sv : Services E) (self : t).

Definition search_repositories (query : string) (keywords : list string)
  : M E (list repo) :=
  Eff.try_except
    (let search_query := query in
     let search_query := search_query ++ " in:name,description" in
     Eff.logger INFO ("Github Search Query: " ++ search_query);;
     let params := SearchParams search_query "stars" "desc" 10 in
     do resp <- Eff.call (github_get sv
                   (SearchRequest (base_url self ++ "/search/repositories")
                      (headers self) params));
     if (search_status_code resp =? 200)%Z then
       Eff.inc success;;
       match search_json resp with
       | Ok body => Eff.ret (default [] (search_items body))
       | Raise e => Eff.raise e
       end
     else
       Eff.inc error;;
       Eff.logger ERROR ("Github API Error: " ++ pretty (search_status_code resp));;
       Eff.ret [])
    Exception
    (fun e =>
       Eff.inc error;;
       (* [logger.error(f"...", e)]: the message has no placeholder for
          the extra argument, so [logging] reports a formatting error on
          stderr, emits no record and does not raise. *)
       Eff.ret []).

Definition get_top_recommendations (event_title : string) (max_results : Z)
  : M E (list analyzed) :=
  let keywords := _extract_keywords event_title in
  do repos <- search_repositories event_title keywords;
  let analyzed_repos := map analyze_repository repos in
  let sorted_repos := sorted_desc a_score analyzed_repos in
  Eff.ret (PyStr.slice_to sorted_repos max_results).

(** What the route [/recommendation] answers.  [Query(3, gt=0, le=10)]
    makes the framework answer 422 without calling the function when
    [max_results] is out of range. *)
Inductive reply : Type :=
| Results (results : list analyzed)
| ValidationError
| HTTPException (status_code : Z).

Definition get_top_recommendation_endpoint (event_title : string) (max_results : Z)
  : M E reply :=
  if ((0 <? max_results) && (max_results <=? 10))%Z%bool then
    Eff.try_except
      (do results <- get_top_recommendations event_title max_results;
       Eff.ret (Results results))
      is_HTTPError
      (fun e => match exn_cls e with
                | HTTPError st => Eff.ret (HTTPException st)
                | _ => Eff.raise e
                end)
  else Eff.ret ValidationError.

End Methods.
End GitHubMcpTool.

(** ** twilio_tool.py *)

Module TwilioNotifierTool.

Record t : Type := Tool { from_number : string }.

(** [__init__], on the three module-level constants read from the
    environment.  [Client(ACCOUNT_SID, AUTH_TOKEN)] only stores its
    arguments. *)
Definition init {E} (ACCOUNT_SID AUTH_TOKEN TWILIO_PHONE_NUMBER : option string) : M E t :=
  if negb (forallb truthy [ACCOUNT_SID; AUTH_TOKEN; TWILIO_PHONE_NUMBER]) then
    Eff.logger ERROR "FATAL: One or more Twilio credentials are missing.";;
    Eff.raise (ValueError "Twilio credentials must be set.")
  else
    let self := Tool (default "" TWILIO_PHONE_NUMBER) in
    Eff.logger INFO "TwilioNotifierTool initialized.";;
    Eff.ret self.

Section Methods.
Context {E : Type} (sv : Services E) (self : t).

Definition send_sms_notification (recipient message_body : value) : M E bool :=
  Eff.try_except
    (do sid <- Eff.call (messages_create sv recipient (from_number self) message_body);
     Eff.logger INFO ("SMS sent successfully to " ++ str_of sv recipient
                      ++ ". SID: " ++ sid);;
     Eff.ret true)
    Exception
    (fun e =>
       Eff.logger ERROR ("Failed to send SMS to " ++ str_of sv recipient
                         ++ ": " ++ exn_str e);;
       Eff.ret false).

End Methods.
End TwilioNotifierTool.

(** ** calendar_tool.py *)

Module CalendarEventTool.

Record t : Type := Tool { calendar_id : string }.

Definition SCOPES : list string := ["https://www.googleapis.com/auth/calendar.readonly"].

(** [__init__(self, calendar_id=None)].  [connect file scopes] stands for
    the two library calls of the [try] block, which read the service account
    file and build the Calendar client; either may raise. *)
Definition init {E} (connect : string -> list string -> E -> result unit * E)
    (SERVICE_ACCOUNT_FILE : string) (LEARNING_CALENDAR_ID : option string)
    (calendar_id : option string) : M E t :=
  let self_calendar_id := py_or calendar_id LEARNING_CALENDAR_ID in
  if negb (truthy self_calendar_id) then
    Eff.logger ERROR "FATAL: LEARNING_CALENDAR_ID is not set.";;
    Eff.raise (ValueError "Calendar ID must be provided or set in env.")
  else
    Eff.try_except
      (Eff.call (connect SERVICE_ACCOUNT_FILE SCOPES);;
       Eff.logger INFO ("CalendarEventTool initialized for Calendar ID: "
                        ++ default "" self_calendar_id);;
       Eff.ret (Tool (default "" self_calendar_id)))
      Exception
      (fun e =>
         Eff.logger ERROR ("Failed to initialize Google Calendar Service: " ++ exn_str e);;
         Eff.raise e).

(** [now.replace(hour=h, minute=m, second=s, microsecond=us)] *)
Definition replace (now : datetime) (h m s us : Z) : datetime :=
  DateTime (year now) (month now) (day now) h m s us.

Definition opt_str (o : option string) : value :=
  match o with Some s => VStr s | None => VNone end.

(** One round of [for event in events]: the subscripts [event['start']] and
    [event['summary']] raise [KeyError] on an absent key, [.get] does not. *)
Definition process_event (event : calendar_event) : result value :=
  match start event with
  | None => Raise (Exn KeyError "'start'")
  | Some st =>
      let start_time :=
        match dateTime st with Some d => Some d | None => date st end in
      match summary event with
      | None => Raise (Exn KeyError "'summary'")
      | Some title =>
          Ok (VDict [("title", VStr title);
                     ("start_time_utc", opt_str start_time);
                     ("link", VStr (default "N/A" (htmlLink event)))])
      end
  end.

Fixpoint process_events (events : list calendar_event) (processed_events : list value)
  : result (list value) :=
  match events with
  | [] => Ok processed_events
  | event :: events' =>
      match process_event event with
      | Ok d => process_events events' (processed_events ++ [d])
      | Raise e => Raise e
      end
  end.

Section Methods.
Context {E : Type} (sv : Services E) (self : t).

(** Each branch ends where the source's does: the [except] clause in
    [return []], the [try] body by falling off the end of the function,
    which is [return None]. *)
Definition get_today_events : M E value :=
  do now <- (fun w => (Ok (utcnow sv (ext w)), w));
  let start_of_day := replace now 0 0 0 0 in
  let end_of_day := replace now 23 59 59 999999 in
  Eff.try_except
    (do events_result <- Eff.call (events_list_execute sv
                           (EventsQuery (calendar_id self) start_of_day end_of_day
                              true "startTime"));
     let events := default [] (items events_result) in
     (if bool_decide (events = []) then Eff.logger INFO "No Events for Today"
      else Eff.ret tt);;
     let processed_events := [] in
     match process_events events processed_events with
     | Ok processed_events => Eff.ret VNone
     | Raise e => Eff.raise e
     end)
    Exception
    (fun e =>
       Eff.logger ERROR ("Error fetching calendar events: " ++ exn_str e);;
       Eff.ret (VList [])).

End Methods.
End CalendarEventTool.

(** ** orchestrator.py *)

Module Orchestrator.

Definition GEMINI_MODEL : string := "gemini-2.5-flash".

Definition SYSTEM_PROMPT : string := "
You are a dedicated AI Learning Planner. Your purpose is to ensure the user maximizes their daily learning opportunities.
Action Flow: 1. Call get_today_events. 2. Based on event titles, call get_top_github_recommendations for resources. 3. Synthesize the results. 4. Call send_sms_notification as the final action.
Constraints: The final message must be concise (<300 chars) and cite the top 1-2 GitHub resources.
".

(** The module-level state: the environment variables read at import time
    and the three tool instances. *)
Record config : Type := Config {
  LEARNER_PHONE_NUMBER : option string;
  GITHUB_MCP_URL : string;
  calendar_tool : CalendarEventTool.t;
  twilio_tool : TwilioNotifierTool.t
}.

(** [f"{x}"] for an [Optional[str]] *)
Definition fmt (o : option string) : string := default "None" o.

(** [s[:100]] *)
Definition take100 (s : string) : string := String.substring 0 100 s.

(** How a loop body ends: it goes on to the next round, or the function
    returns. *)
Inductive flow : Type :=
| Continue
| Return (r : option string).

(** A call that unpacks the dict [args] into keyword arguments, for a
    function with the given required and optional parameter names: a key
    that names no parameter and a required parameter without a key are
    [TypeError]s.  The messages follow CPython's wording; of several
    unexpected keys CPython names the first in the dict's order, the model
    the first in the map's. *)
Definition missing_message (fname : string) (missing : list string) : string :=
  match missing with
  | [p] => fname ++ "() missing 1 required positional argument: '" ++ p ++ "'"
  | [p1; p2] =>
      fname ++ "() missing 2 required positional arguments: '" ++ p1 ++ "' and '" ++ p2 ++ "'"
  | _ => fname ++ "() missing required positional arguments"
  end.

Definition bind_kwargs {E} (fname : string) (required optional : list string)
    (args : gmap string value) : M E unit :=
  match filter (fun k => k ∉ (required ++ optional)%list) (map fst (map_to_list args)) with
  | k :: _ =>
      Eff.raise (Exn TypeError (fname ++ "() got an unexpected keyword argument '" ++ k ++ "'"))
  | [] =>
      match filter (fun p => args !! p = None) required with
      | p :: missing => Eff.raise (Exn TypeError (missing_message fname (p :: missing)))
      | [] => Eff.ret tt
      end
  end.

Module GitHubMcpClient.
Record t : Type := Client { url : string }.

Section Methods.
Context {E : Type} (sv : Services E) (self : t).

(** [response.raise_for_status()]; the text of the message is abridged *)
Definition raise_for_status (resp : mcp_response) : M E unit :=
  if ((400 <=? mcp_status_code resp) && (mcp_status_code resp <? 600))%Z%bool
  then Eff.raise (Exn (HTTPError (mcp_status_code resp))
                    (pretty (mcp_status_code resp) ++ " Error"))
  else Eff.ret tt.

(** The [except] clause only logs: the function then falls off its
    end, which is [return None]. *)
Definition get_top_github_recommendations (event_title max_results : value)
  : M E value :=
  Eff.logger INFO ("Calling Github MCP for event: " ++ str_of sv event_title);;
  Eff.try_except
    (do resp <- Eff.call (mcp_get sv (url self) event_title max_results);
     raise_for_status resp;;
     match mcp_json resp with
     | Ok v => Eff.ret v
     | Raise e => Eff.raise e
     end)
    is_RequestException
    (fun e =>
       Eff.logger ERROR ("Error calling GitHub MCP: " ++ exn_str e);;
       Eff.ret VNone).

End Methods.
End GitHubMcpClient.

Section Agent.
Context {E : Type} (sv : Services E) (cfg : config).

Definition github_tool_client : GitHubMcpClient.t :=
  GitHubMcpClient.Client (GITHUB_MCP_URL cfg).

(** The three bound methods, called with keyword arguments. *)
Definition call_get_today_events (args : gmap string value) : M E value :=
  bind_kwargs "CalendarEventTool.get_today_events" [] [] args;;
  CalendarEventTool.get_today_events sv (calendar_tool cfg).

Definition call_get_top_github_recommendations (args : gmap string value) : M E value :=
  bind_kwargs "GitHubMcpClient.get_top_github_recommendations"
    ["event_title"] ["max_results"] args;;
  GitHubMcpClient.get_top_github_recommendations sv github_tool_client
    (default VNone (args !! "event_title"))
    (default (VInt 3) (args !! "max_results")).

Definition call_send_sms_notification (args : gmap string value) : M E value :=
  bind_kwargs "TwilioNotifierTool.send_sms_notification"
    ["recipient"; "message_body"] [] args;;
  do sent_ok <- TwilioNotifierTool.send_sms_notification sv (twilio_tool cfg)
                  (default VNone (args !! "recipient"))
                  (default VNone (args !! "message_body"));
  Eff.ret (VBool sent_ok).

Definition TOOL_EXECUTOR_MAP : gmap string (gmap string value -> M E value) :=
  list_to_map
    [("get_today_events", call_get_today_events);
     ("get_top_github_recommendations", call_get_top_github_recommendations);
     ("send_sms_notification", call_send_sms_notification)].

Definition error_payload (e : exn) : value :=
  VDict [("error", VStr (exn_str e)); ("status", VStr "failed")].

Definition success_status : string :=
  "Plan successfully sent to " ++ fmt (LEARNER_PHONE_NUMBER cfg) ++ ".".

Definition failure_status : string :=
  "Agent planning failed: Loop iteration limit exceeded.".

(** The body of [for call in response.function_calls], on the list
    [tool_responses] built so far. *)
Definition dispatch_call (call : tool_call) (tool_responses : list part)
  : M E (list part * flow) :=
  let tool_name := name call in
  let args := args call in
  match TOOL_EXECUTOR_MAP !! tool_name with
  | Some tool_func =>
      Eff.try_except
        (do tool_result <- tool_func args;
         Eff.logger INFO ("Executed " ++ tool_name ++ ". Result: "
                          ++ take100 (json_dumps sv tool_result) ++ "...");;
         do p <- types.Part.from_function_response sv tool_name tool_result;
         let tool_responses := (tool_responses ++ [p])%list in
         if String.eqb tool_name "send_sms_notification" then
           Eff.logger INFO "Final SMS notification successfully triggered by the agent.";;
           Eff.ret (tool_responses, Return (Some success_status))
         else Eff.ret (tool_responses, Continue))
        Exception
        (fun e =>
           Eff.logger ERROR ("Error executing tool " ++ tool_name ++ ": " ++ exn_str e);;
           do p <- types.Part.from_function_response sv tool_name (error_payload e);
           Eff.ret ((tool_responses ++ [p])%list, Continue))
  | None =>
      Eff.logger WARNING ("Tool " ++ tool_name ++ " not found in map.");;
      Eff.ret (tool_responses, Continue)
  end.

Fixpoint dispatch_calls (calls : list tool_call) (tool_responses : list part)
  : M E (list part * flow) :=
  match calls with
  | [] => Eff.ret (tool_responses, Continue)
  | call :: calls' =>
      do '(tool_responses, fl) <- dispatch_call call tool_responses;
      match fl with
      | Return r => Eff.ret (tool_responses, Return r)
      | Continue => dispatch_calls calls' tool_responses
      end
  end.

(** One round of [for _ in range(15)].  [response] is assigned once,
    before the loop, and the list [tool_responses] of a round is not used
    after the round. *)
Definition turn (resp : response) : M E flow :=
  match function_calls resp with
  | _ :: _ =>
      let tool_responses := [] in
      do '(tool_responses, fl) <- dispatch_calls (function_calls resp) tool_responses;
      Eff.ret fl
  | [] =>
      let final_text := text resp in
      Eff.logger INFO ("Agent finished planning. Final response:
" ++ fmt final_text);;
      Eff.ret (Return final_text)
  end.

Fixpoint tool_loop (rounds : nat) (resp : response) : M E (option string) :=
  match rounds with
  | O =>
      Eff.logger ERROR "Agent exceeded the maximum loop iterations.";;
      Eff.ret (Some failure_status)
  | S rounds' =>
      do fl <- turn resp;
      match fl with
      | Return r => Eff.ret r
      | Continue => tool_loop rounds' resp
      end
  end.

(** [session.send_message(m)] *)
Definition session_send_message (m : message) : M E response :=
  Eff.record_sent m;;
  Eff.call (send_message sv m).

Definition tools_list : list string :=
  ["get_today_events"; "get_top_github_recommendations"; "send_sms_notification"].

Definition initial_prompt : string :=
  "Generate today's complete learning schedule, find relevant hands-on resources, "
  ++ "and send the final message to the learner at "
  ++ fmt (LEARNER_PHONE_NUMBER cfg) ++ ".".

Definition run_agent : M E (option string) :=
  Eff.call (chats_create sv GEMINI_MODEL SYSTEM_PROMPT tools_list);;
  do resp <- session_send_message (Prompt initial_prompt);
  tool_loop 15 resp.

End Agent.

(** The environment variables the three modules read when they are
    imported; [None] is a variable that is not set. *)
Record environ : Type := Environ {
  env_LEARNER_PHONE_NUMBER : option string;
  env_GITHUB_MCP_URL : option string;
  env_LEARNING_CALENDAR_ID : option string;
  env_GOOGLE_CALENDAR_SERVICE_ACCOUNT_FILE : option string;
  env_TWILIO_ACCOUNT_SID : option string;
  env_TWILIO_AUTH_TOKEN : option string;
  env_TWILIO_PHONE_NUMBER : option string
}.

Section Startup.
Context {E : Type} (sv : Services E)
  (connect : string -> list string -> E -> result unit * E) (env : environ).

(** The module-level [try] that builds the three tool instances.  [exit()]
    ends the process: the result is [None] and nothing of the module runs
    after it. *)
Definition initialize : M E (option config) :=
  Eff.try_except
    (do calendar_tool <-
       CalendarEventTool.init connect
         (default "credentials.json" (env_GOOGLE_CALENDAR_SERVICE_ACCOUNT_FILE env))
         (env_LEARNING_CALENDAR_ID env) None;
     do twilio_tool <-
       TwilioNotifierTool.init (env_TWILIO_ACCOUNT_SID env) (env_TWILIO_AUTH_TOKEN env)
         (env_TWILIO_PHONE_NUMBER env);
     Eff.ret (Some (Config (env_LEARNER_PHONE_NUMBER env)
                      (default "http://localhost:8000/recommendation"
                         (env_GITHUB_MCP_URL env))
                      calendar_tool twilio_tool)))
    Exception
    (fun e =>
       Eff.logger CRITICAL ("Tool Initialization Failed: " ++ exn_str e);;
       Eff.ret None).

(** The block under [if __name__ == "__main__":] *)
Definition main (cfg : config) : M E unit :=
  Eff.logger INFO "--- Starting ADK-Style Learning Agent Orchestration ---";;
  do final_output <- run_agent sv cfg;
  Eff.logger INFO ("Final Agent Status: " ++ fmt final_output);;
  Eff.logger INFO "--- Orchestration Complete ---".

(** Running [orchestrator.py] as a script. *)
Definition script : M E unit :=
  do started <- initialize;
  match started with
  | Some cfg => main cfg
  | None => Eff.ret tt
  end.

End Startup.
End Orchestrator.

(** * Vocabulary of the properties *)

(** ** A concrete outside, to run the definitions on

    The state of the outside is the number of requests it has served. *)

Module Scenario.

Definition show (v : value) : string :=
  match v with VStr s => s | VNone => "None" | _ => "?" end.

Definition dumps (v : value) : string :=
  match v with
  | VNone => "null" | VBool true => "true" | VBool false => "false"
  | VList [] => "[]" | _ => "?"
  end.

(** the text of pydantic's error, abridged to its first line *)
Definition refused (v : value) : string := "1 validation error for FunctionResponse".

Definition services (reply : result response) (sms : result string)
    (mcp : result mcp_response) (cal : result events_result)
    (gh : result search_response) : Services nat :=
  {| utcnow := fun _ => DateTime 2025 3 14 9 26 53 589793;
     events_list_execute := fun _ n => (cal, S n);
     github_get := fun _ n => (gh, S n);
     mcp_get := fun _ _ _ n => (mcp, S n);
     messages_create := fun _ _ _ n => (sms, S n);
     chats_create := fun _ _ _ n => (Ok tt, n);
     send_message := fun _ n => (reply, S n);
     str_of := show;
     json_dumps := dumps;
     validation_error := refused |}.

Definition w0 : World nat := MkWorld 0%nat [] (fun _ => 0%nat) [].

Definition cfg : Orchestrator.config :=
  Orchestrator.Config (Some "+15550100") "http://localhost:8000/recommendation"
    (CalendarEventTool.Tool "learning@example.com")
    (TwilioNotifierTool.Tool "+15550199").

Definition unreachable : exn := Exn RequestException "connection refused".
Definition rejected : exn := Exn OtherException "Unable to create record".

Definition no_reply : result response := Ok (Response [] None).
Definition no_mcp : result mcp_response := Raise unreachable.
Definition no_cal : result events_result := Raise unreachable.
Definition no_gh : result search_response := Raise unreachable.

Definition kubernetes_event : calendar_event :=
  CalendarEvent (Some "Intro to Kubernetes")
    (Some (EventStart (Some "2025-03-14T09:00:00Z") None))
    (Some "https://calendar.example.com/e/1").

Definition sms_call : tool_call :=
  ToolCall "send_sms_notification"
    (<["recipient" := VStr "+15550100"]> (<["message_body" := VStr "Study k8s today"]> ∅)).

Definition events_call : tool_call := ToolCall "get_today_events" ∅.

Definition unknown_call : tool_call := ToolCall "get_weather" ∅.

Definition bad_sms_call : tool_call :=
  ToolCall "send_sms_notification" (<["recipient" := VStr "+15550100"]> ∅).

(** what binding the arguments of [bad_sms_call] raises *)
Definition missing_body : exn :=
  Exn TypeError ("TwilioNotifierTool.send_sms_notification() missing 1 required "
                 ++ "positional argument: 'message_body'").

Definition mk_repo (nm : string) (stars : Z) : repo :=
  Repo (Some nm) None None (Some stars) (Some 0%Z) None None None.

Definition today : events_result := EventsResult (Some [kubernetes_event]).

(** the model asks for today's events; the calendar has one *)
Definition asks_events : Services nat :=
  services (Ok (Response [events_call] None)) (Ok "SM1") no_mcp (Ok today) no_gh.

(** the model asks for an unknown tool, then the SMS, then the events;
    Twilio rejects the message *)
Definition sms_rejected : Services nat :=
  services (Ok (Response [unknown_call; sms_call; events_call] None))
    (Raise rejected) no_mcp no_cal no_gh.

(** the model asks for the SMS first and the events second; Twilio accepts *)
Definition sms_first : Services nat :=
  services (Ok (Response [sms_call; events_call] None)) (Ok "SM1") no_mcp (Ok today) no_gh.

(** the model forgets the message body *)
Definition sms_without_body : Services nat :=
  services (Ok (Response [bad_sms_call] None)) (Ok "SM1") no_mcp no_cal no_gh.

(** GitHub finds three repositories, in this order: [a] with 100 stars, [b]
    with 200 and [c] with 100 *)
Definition three_repos : list repo := [mk_repo "a" 100; mk_repo "b" 200; mk_repo "c" 100].

Definition github_answers : Services nat :=
  services no_reply (Ok "SM1") no_mcp no_cal
    (Ok (SearchResponse 200 (Ok (SearchBody (Some three_repos))))).

Definition github_tool : GitHubMcpTool.t :=
  GitHubMcpTool.Tool None "https://api.github.com"
    [("Accept", "application/vnd.github.v3+json")].

(** the process state once the model has answered the initial prompt *)
Definition w1 : World nat :=
  MkWorld 1%nat [] (fun _ => 0%nat) [Prompt (Orchestrator.initial_prompt cfg)].

End Scenario.

(** ** Predicates on runs *)

Section Vocabulary.
Context {E : Type} (sv : Services E).

(** [m] hands nothing to the chat session. *)
Definition keeps_sent {A} (m : M E A) : Prop := ∀ w, sent (m w).2 = sent w.

(** the process state after one more log record *)
Definition logged (w : World E) (l : level) (msg : string) : World E :=
  MkWorld (ext w) (logs w ++ [Log l msg]) (GITHUB_SEARCHES w) (sent w).

(** the process state after more log records *)
Definition with_logs (w : World E) (records : list log_record) : World E :=
  MkWorld (ext w) (logs w ++ records) (GITHUB_SEARCHES w) (sent w).

(** the record of a tool that returned [v] *)
Definition executed (c : tool_call) (v : value) : log_record :=
  Log INFO ("Executed " ++ name c ++ ". Result: "
            ++ Orchestrator.take100 (json_dumps sv v) ++ "...").

(** the record of a call that ended in [e] *)
Definition failed (c : tool_call) (e : exn) : log_record :=
  Log ERROR ("Error executing tool " ++ name c ++ ": " ++ exn_str e).

Definition accepted_by_twilio (self : TwilioNotifierTool.t) (recipient body : value)
    (w : World E) : Prop :=
  ∃ sid e', messages_create sv recipient (TwilioNotifierTool.from_number self) body (ext w)
            = (Ok sid, e').

(** the request [get_today_events] makes when the clock shows [utcnow] *)
Definition today_query (self : CalendarEventTool.t) (w : World E) : events_query :=
  let now := utcnow sv (ext w) in
  EventsQuery (CalendarEventTool.calendar_id self)
    (DateTime (year now) (month now) (day now) 0 0 0 0)
    (DateTime (year now) (month now) (day now) 23 59 59 999999)
    true "startTime".

Definition search_request_of (self : GitHubMcpTool.t) (query : string) : search_request :=
  SearchRequest (GitHubMcpTool.base_url self ++ "/search/repositories")
    (GitHubMcpTool.headers self)
    (SearchParams (query ++ " in:name,description") "stars" "desc" 10).

(** a search error as the orchestrator's client meets it: the request
    raises, or the endpoint answers with an error status *)
Definition mcp_search_error (self : Orchestrator.GitHubMcpClient.t)
    (event_title max_results : value) (w : World E) : Prop :=
  (∃ e e', mcp_get sv (Orchestrator.GitHubMcpClient.url self) event_title max_results (ext w)
           = (Raise e, e') ∧ is_RequestException e = true)
  ∨ (∃ resp e', mcp_get sv (Orchestrator.GitHubMcpClient.url self) event_title max_results (ext w)
                = (Ok resp, e')
                ∧ (400 <= mcp_status_code resp < 600)%Z).

(** the keyword arguments fit the parameters *)
Definition accepts (required optional : list string) (args : gmap string value) : bool :=
  forallb (fun k => bool_decide (k ∈ (required ++ optional)%list)) (map fst (map_to_list args))
  && forallb (fun p => bool_decide (is_Some (args !! p))) required.

(** a call of the terminal tool whose arguments bind *)
Definition terminal_call (c : tool_call) : bool :=
  String.eqb (name c) "send_sms_notification"
  && accepts ["recipient"; "message_body"] [] (args c).

Section WithConfig.
Context (cfg : Orchestrator.config).

(** the registry has an entry for the call's tool name *)
Definition resolvable (c : tool_call) : bool :=
  bool_decide (is_Some (Orchestrator.TOOL_EXECUTOR_MAP sv cfg !! name c)).

(** The session was created and the model answered the initial prompt
    with [r], leaving the process in [w1]. *)
Definition first_reply (w : World E) (r : response) (w1 : World E) : Prop :=
  ∃ e1 e2,
    chats_create sv Orchestrator.GEMINI_MODEL Orchestrator.SYSTEM_PROMPT
      Orchestrator.tools_list (ext w) = (Ok tt, e1)
    ∧ send_message sv (Prompt (Orchestrator.initial_prompt cfg)) e1 = (Ok r, e2)
    ∧ w1 = MkWorld e2 (logs w) (GITHUB_SEARCHES w)
             (sent w ++ [Prompt (Orchestrator.initial_prompt cfg)]).
End WithConfig.

End Vocabulary.

(** ** The scoring formula, as the specification words it *)

Module ScoreSpec.

(** [needle] occurs in [hay] when letter case is ignored *)
Definition contains_ci (needle hay : string) : bool :=
  PyStr.contains (PyStr.lower needle) (PyStr.lower hay).

(** how many of the hands-on keywords occur in the lowercased description *)
Definition keyword_hits (descr : string) : nat :=
  length (filter (fun kw => PyStr.contains kw (PyStr.lower descr) = true)
            GitHubMcpTool.hands_on_keywords).

(** Two patterns agree under two letter maps when, position by position,
    a letter is sent to the one exactly when it is sent to the other. *)
Fixpoint agree (f g : ascii -> ascii) (p p' : string) : Prop :=
  match p, p' with
  | EmptyString, EmptyString => True
  | String a p0, String a' p0' => (forall c, a = f c <-> a' = g c) /\ agree f g p0 p0'
  | _, _ => False
  end.

Definition flag (b : bool) : Q := if b then 1%Q else 0%Q.

Definition score (stars forks : Z) (descr : string) (wiki : bool) : Q :=
  (Qmin (inject_Z stars / 100) 50 + Qmin (inject_Z forks / 100) 20
   + 5 * inject_Z (Z.of_nat (keyword_hits descr))
   + 5 * flag wiki
   + 5 * flag (contains_ci "README" descr))%Q.

End ScoreSpec.

(** ** Ranking *)

Section Ranking.
Context {A : Type} (key : A → Q).

(** Position [i] of [l] ranks before position [j]: its key is greater, or
    the keys agree and [i] was met first. *)
Definition ranks_before (l : list A) (i j : nat) : Prop :=
  ∃ x y, l !! i = Some x ∧ l !! j = Some y
         ∧ ((key y < key x)%Q ∨ ((key x == key y)%Q ∧ (i < j)%nat)).

(** the same order on elements that carry their position *)
Definition pair_before (p q : nat * A) : Prop :=
  (key q.2 < key p.2)%Q \/ ((key p.2 == key q.2)%Q /\ (p.1 < q.1)%nat).

(** [l] with its positions, counted from [i] *)
Fixpoint enumerate_from (i : nat) (l : list A) : list (nat * A) :=
  match l with
  | [] => []
  | x :: l' => (i, x) :: enumerate_from (S i) l'
  end.

(** [out] lists the elements of [l] found at the positions [idxs] *)
Definition picks (l : list A) (idxs : list nat) (out : list A) : Prop :=
  Forall2 (fun i x => l !! i = Some x) idxs out.

End Ranking.

(** ** Vocabulary of the further properties *)

(** a calendar item that has both keys the loop subscripts *)
Definition complete (event : calendar_event) : bool :=
  match start event, summary event with
  | Some _, Some _ => true
  | _, _ => false
  end.

(** [d] is the dict built from [event]: the start is ['dateTime'] when the
    item has one and ['date'] otherwise, the link is ['N/A'] when absent *)
Definition processed_from (event : calendar_event) (d : value) : Prop :=
  ∃ title st,
    summary event = Some title ∧ start event = Some st
    ∧ d = VDict [("title", VStr title);
                 ("start_time_utc",
                  CalendarEventTool.opt_str
                    (match dateTime st with Some t => Some t | None => date st end));
                 ("link", VStr (default "N/A" (htmlLink event)))].

(** the fields of a [datetime], most significant first *)
Definition datetime_fields (d : datetime) : list Z :=
  [year d; month d; day d; hour d; minute d; second d; microsecond d].

(** lexicographic order, which is the order of time on well-formed values *)
Fixpoint lex_le (a b : list Z) : Prop :=
  match a, b with
  | x :: a', y :: b' => (x < y)%Z ∨ (x = y ∧ lex_le a' b')
  | _, _ => True
  end.

Definition datetime_le (a b : datetime) : Prop :=
  lex_le (datetime_fields a) (datetime_fields b).

Definition time_of_day_ok (d : datetime) : Prop :=
  (0 <= hour d <= 23 ∧ 0 <= minute d <= 59 ∧ 0 <= second d <= 59
   ∧ 0 <= microsecond d <= 999999)%Z.

(** An outside that keeps a list of the requests its calendar is sent;
    it answers every request as [sv] does. *)
Definition unwatched {E A} (f : E → result A * E)
  : E * list events_query → result A * (E * list events_query) :=
  fun s => let '(r, e') := f s.1 in (r, (e', s.2)).

Definition watched {E} (sv : Services E) : Services (E * list events_query) :=
  {| utcnow := fun s => utcnow sv s.1;
     events_list_execute := fun query s =>
       let '(r, e') := events_list_execute sv query s.1 in (r, (e', (s.2 ++ [query])%list));
     github_get := fun request => unwatched (github_get sv request);
     mcp_get := fun url event_title max_results =>
       unwatched (mcp_get sv url event_title max_results);
     messages_create := fun to from_ body => unwatched (messages_create sv to from_ body);
     chats_create := fun model system_instruction tools =>
       unwatched (chats_create sv model system_instruction tools);
     send_message := fun m => unwatched (send_message sv m);
     str_of := str_of sv;
     json_dumps := json_dumps sv;
     validation_error := validation_error sv |}.

(** the requests the calendar has been sent *)
Definition calendar_requests {E} (w : World (E * list events_query)) : list events_query :=
  (ext w).2.

(** a calendar account whose credentials load *)
Definition connects : string → list string → nat → result unit * nat :=
  fun _ _ n => (Ok tt, S n).

Definition full_environ : Orchestrator.environ :=
  Orchestrator.Environ (Some "+15550100") None (Some "learning@example.com") None
    (Some "AC0123") (Some "secret") (Some "+15550199").

(** [r] with other star and fork counts *)
Definition with_counts (r : repo) (stars forks : Z) : repo :=
  Repo (full_name r) (html_url r) (description r) (Some stars) (Some forks)
    (language r) (has_wiki r) (updated_at r).

(** a repository that earns every bonus *)
Definition best_repo : repo :=
  Repo (Some "octo/everything") None
    (Some "Tutorial, example, hands-on and practical guide: a workshop project. See README")
    (Some 5000%Z) (Some 2000%Z) None (Some true) None.

(** what the counter [GITHUB_SEARCHES] gains in one search, by label *)
Definition counted (outcome : result search_response) (label : search_status) : nat :=
  match outcome, label with
  | Ok resp, success => if (search_status_code resp =? 200)%Z then 1 else 0
  | Ok resp, error =>
      if (search_status_code resp =? 200)%Z
      then match search_json resp with Ok _ => 0 | Raise _ => 1 end
      else 1
  | Raise _, success => 0
  | Raise _, error => 1
  end%nat.

(** [l[:k]] has this many elements when [l] has [n] *)
Definition slice_length (n : nat) (k : Z) : nat :=
  if (k <? 0)%Z then Z.to_nat (Z.of_nat n + k) else Nat.min (Z.to_nat k) n.

(** the warnings of one turn whose calls all name unknown tools *)
Definition not_found_warnings (calls : list tool_call) : list log_record :=
  map (fun c => Log WARNING ("Tool " ++ name c ++ " not found in map.")) calls.

(** what [run_agent] returns, read off the model's first reply *)
Definition verdict (r : response) : option string :=
  match function_calls r with
  | [] => text r
  | _ :: _ => Some Orchestrator.failure_status
  end.

(** the configuration a complete environment leads to *)
Definition config_of (env : Orchestrator.environ) : Orchestrator.config :=
  Orchestrator.Config (Orchestrator.env_LEARNER_PHONE_NUMBER env)
    (default "http://localhost:8000/recommendation" (Orchestrator.env_GITHUB_MCP_URL env))
    (CalendarEventTool.Tool (default "" (Orchestrator.env_LEARNING_CALENDAR_ID env)))
    (TwilioNotifierTool.Tool (default "" (Orchestrator.env_TWILIO_PHONE_NUMBER env))).

(** every variable the constructors insist on is set and non-empty *)
Definition environ_complete (env : Orchestrator.environ) : bool :=
  truthy (Orchestrator.env_LEARNING_CALENDAR_ID env)
  && forallb truthy [Orchestrator.env_TWILIO_ACCOUNT_SID env;
                     Orchestrator.env_TWILIO_AUTH_TOKEN env;
                     Orchestrator.env_TWILIO_PHONE_NUMBER env].

Definition service_account_file (env : Orchestrator.environ) : string :=
  default "credentials.json" (Orchestrator.env_GOOGLE_CALENDAR_SERVICE_ACCOUNT_FILE env).

(** ** Further concrete runs *)

(** an event nobody gave a title *)
Definition untitled_event : calendar_event :=
  CalendarEvent None (Some (EventStart None (Some "2025-03-14"))) None.

(** the calendar holds a titled and an untitled event *)
Definition calendar_with_untitled : Services nat :=
  Scenario.services (Ok (Response [Scenario.events_call] None)) (Ok "SM1") Scenario.no_mcp
    (Ok (EventsResult (Some [Scenario.kubernetes_event; untitled_event]))) Scenario.no_gh.

(** the model answers in words *)
Definition nothing_scheduled : response := Response [] (Some "Nothing is scheduled today.").

Definition answers_in_words : Services nat :=
  Scenario.services (Ok nothing_scheduled) (Ok "SM1") Scenario.no_mcp Scenario.no_cal
    Scenario.no_gh.

(** the model asks for a tool that does not exist *)
Definition asks_unknown : Services nat :=
  Scenario.services (Ok (Response [Scenario.unknown_call] None)) (Ok "SM1") Scenario.no_mcp
    Scenario.no_cal Scenario.no_gh.

(** the environment without [LEARNING_CALENDAR_ID] *)
Definition environ_without_calendar : Orchestrator.environ :=
  Orchestrator.Environ (Some "+15550100") None None None
    (Some "AC0123") (Some "secret") (Some "+15550199").
(** * Properties *)

(** ** The definitions on small inputs *)

Example slice_to_positive : PyStr.slice_to [1; 2; 3]%Z 2 = [1; 2]%Z.
Proof. reflexivity. Qed.

Example slice_to_large : PyStr.slice_to [1; 2; 3]%Z 5 = [1; 2; 3]%Z.
Proof. reflexivity. Qed.

Example slice_to_negative : PyStr.slice_to [1; 2; 3]%Z (-1) = [1; 2]%Z.
Proof. reflexivity. Qed.

Example contains_inside : PyStr.contains "guide" "a field guide to go" = true.
Proof. reflexivity. Qed.

Example contains_empty : PyStr.contains "" "" = true.
Proof. reflexivity. Qed.

Example extract_keywords_kubernetes :
  GitHubMcpTool._extract_keywords "Intro to Kubernetes" = ["kubernetes"].
Proof. reflexivity. Qed.

(** 12345 stars and 250 forks give 50 + 2.5; four keywords (tutorial,
    example, hands-on, project), the wiki and the README give 30 more. *)
Example score_of_example :
  (GitHubMcpTool.score_of
     (Repo (Some "octo/k8s-lab") None
        (Some "A Hands-On tutorial, see ReadMe; example project")
        (Some 12345%Z) (Some 250%Z) (Some "Go") (Some true) None)
   == 165 # 2)%Q.
Proof. vm_compute. reflexivity. Qed.

(** Equal keys keep the order they came in. *)
Example sorted_desc_stable :
  GitHubMcpTool.sorted_desc (fun p : string * Z => inject_Z p.2)
    [("a", 1%Z); ("b", 2%Z); ("c", 1%Z); ("d", 2%Z)]
  = [("b", 2%Z); ("d", 2%Z); ("a", 1%Z); ("c", 1%Z)].
Proof. reflexivity. Qed.


(** ** Twilio: the notifier swallows every failure *)

Section TwilioFacts.
Context {E : Type} (sv : Services E) (self : TwilioNotifierTool.t).

Lemma send_sms_notification_bool recipient body w :
  ∃ b w', TwilioNotifierTool.send_sms_notification sv self recipient body w = (Ok b, w')
          ∧ (b = true ↔ accepted_by_twilio sv self recipient body w).
Proof.
  unfold TwilioNotifierTool.send_sms_notification, accepted_by_twilio,
    Eff.try_except, Eff.bind, Eff.call.
  destruct (messages_create sv recipient _ body (ext w)) as [[sid|e] e'] eqn:Hc; simpl.
  - eexists true, _. split; [reflexivity|]. split; eauto.
  - eexists false, _. split; [reflexivity|].
    split; [discriminate|]. intros (sid & e'' & Heq). discriminate.
Qed.

End TwilioFacts.

(** ** Calendar *)

Section CalendarFacts.
Context {E : Type} (sv : Services E) (self : CalendarEventTool.t).

(** When the upstream call fails, or an item lacks ['start'] or
    ['summary'], the answer is the empty list. *)
Lemma get_today_events_failure w :
  (∃ e e', events_list_execute sv (today_query sv self w) (ext w) = (Raise e, e'))
  ∨ (∃ er e' e, events_list_execute sv (today_query sv self w) (ext w) = (Ok er, e')
                ∧ CalendarEventTool.process_events (default [] (items er)) [] = Raise e) →
  ∃ w', CalendarEventTool.get_today_events sv self w = (Ok (VList []), w').
Proof.
  unfold CalendarEventTool.get_today_events, today_query, CalendarEventTool.replace,
    Eff.bind, Eff.try_except, Eff.call.
  intros [(e & e' & He) | (er & e' & e & He & Hp)]; cbn [fst snd ext];
    rewrite He; cbn; [eauto|].
  rewrite Hp. case_bool_decide; cbn; eauto.
Qed.

Lemma get_today_events_never_raises w :
  ∃ v w', CalendarEventTool.get_today_events sv self w = (Ok v, w')
          ∧ (v = VNone ∨ v = VList []).
Proof.
  unfold CalendarEventTool.get_today_events, Eff.bind, Eff.try_except, Eff.call; simpl.
  destruct (events_list_execute sv _ (ext w)) as [[er|e] e']; simpl; [|eauto 6].
  destruct (CalendarEventTool.process_events _ _); case_bool_decide; simpl; eauto 6.
Qed.

End CalendarFacts.

(** ** Repository search: the server and the orchestrator's client *)

Section SearchFacts.
Context {E : Type} (sv : Services E).

(** The outcome of the server-side search, by cases on the upstream call. *)
Lemma search_repositories_cases self query keywords w :
  ∃ w', GitHubMcpTool.search_repositories sv self query keywords w
        = (Ok match github_get sv (search_request_of self query) (ext w) with
              | (Ok resp, _) =>
                  if (search_status_code resp =? 200)%Z then
                    match search_json resp with
                    | Ok body => default [] (search_items body)
                    | Raise _ => []
                    end
                  else []
              | (Raise _, _) => []
              end, w').
Proof.
  unfold GitHubMcpTool.search_repositories, search_request_of,
    Eff.bind, Eff.try_except, Eff.call; simpl.
  destruct (github_get sv _ (ext w)) as [[resp|e] e']; simpl; [|eauto].
  destruct (search_status_code resp =? 200)%Z; simpl; [|eauto].
  destruct (search_json resp); simpl; eauto.
Qed.

Lemma search_repositories_error_empty self query keywords w :
  (∃ e e', github_get sv (search_request_of self query) (ext w) = (Raise e, e'))
  ∨ (∃ resp e', github_get sv (search_request_of self query) (ext w) = (Ok resp, e')
                ∧ search_status_code resp ≠ 200%Z) →
  ∃ w', GitHubMcpTool.search_repositories sv self query keywords w = (Ok [], w').
Proof.
  intros H. destruct (search_repositories_cases self query keywords w) as (w' & ->).
  exists w'. f_equal. f_equal.
  destruct H as [(e & e' & ->) | (resp & e' & -> & Hne)]; [reflexivity|].
  apply Z.eqb_neq in Hne. rewrite Hne. reflexivity.
Qed.

End SearchFacts.

(** ** Effects that leave the chat session alone *)

Section KeepsSent.
Context {E : Type}.

Lemma keeps_sent_ret {A} (a : A) : keeps_sent (@Eff.ret E A a).
Proof. intros w. reflexivity. Qed.

Lemma keeps_sent_raise {A} e : keeps_sent (@Eff.raise E A e).
Proof. intros w. reflexivity. Qed.

Lemma keeps_sent_call {A} (f : E → result A * E) : keeps_sent (@Eff.call E A f).
Proof. intros w. unfold Eff.call. destruct (f (ext w)). reflexivity. Qed.

Lemma keeps_sent_logger l msg : keeps_sent (@Eff.logger E l msg).
Proof. intros w. reflexivity. Qed.

Lemma keeps_sent_inc s : keeps_sent (@Eff.inc E s).
Proof. intros w. reflexivity. Qed.

Lemma keeps_sent_bind {A B} (m : M E A) (k : A → M E B) :
  keeps_sent m → (∀ a, keeps_sent (k a)) → keeps_sent (Eff.bind m k).
Proof.
  intros Hm Hk w. unfold Eff.bind. specialize (Hm w).
  destruct (m w) as [[a|e] w1]; simpl in *; [|assumption].
  rewrite Hk. assumption.
Qed.

Lemma keeps_sent_try_except {A} (body : M E A) catches handler :
  keeps_sent body → (∀ e, keeps_sent (handler e)) →
  keeps_sent (Eff.try_except body catches handler).
Proof.
  intros Hb Hh w. unfold Eff.try_except. specialize (Hb w).
  destruct (body w) as [[a|e] w1]; simpl in *; [assumption|].
  destruct (catches e); simpl; [|assumption].
  rewrite Hh. assumption.
Qed.

End KeepsSent.

Create HintDb keeps discriminated.
#[export] Hint Resolve keeps_sent_ret keeps_sent_raise keeps_sent_call keeps_sent_logger
  keeps_sent_inc : keeps.

Ltac keeps :=
  repeat first
    [ match goal with |- ∀ _, _ => intro end
    | solve [auto with keeps]
    | apply keeps_sent_bind
    | apply keeps_sent_try_except
    | match goal with
      | |- keeps_sent (match ?x with _ => _ end) => destruct x
      | |- keeps_sent (if ?b then _ else _) => destruct b
      end ].

(** ** Keyword arguments *)

Section KwargsFacts.
Context {E : Type}.

Lemma filter_nil_forallb {A} (P : A → Prop) `{!∀ x, Decision (P x)} (ok : A → bool) l :
  (∀ x, ok x = true → ¬ P x) → forallb ok l = true → filter P l = [].
Proof.
  intros Hok. induction l as [|x l IH]; simpl; [reflexivity|].
  intros [Hx Hl]%andb_prop. rewrite filter_cons.
  destruct (decide (P x)) as [HP|_]; [destruct (Hok x Hx HP) | auto].
Qed.

Lemma filter_cons_forallb {A} (P : A → Prop) `{!∀ x, Decision (P x)} (ok : A → bool) l :
  (∀ x, ok x = false → P x) → forallb ok l = false → ∃ x l', filter P l = x :: l'.
Proof.
  intros Hok. induction l as [|x l IH]; simpl; [discriminate|].
  intros Hf. rewrite filter_cons.
  destruct (decide (P x)) as [_|HP]; [eauto|].
  destruct (ok x) eqn:Hx; [auto | destruct (HP (Hok x Hx))].
Qed.

Lemma bind_kwargs_accepts fname required optional args (w : World E) :
  accepts required optional args = true →
  Orchestrator.bind_kwargs fname required optional args w = (Ok tt, w).
Proof.
  unfold accepts, Orchestrator.bind_kwargs. intros [Hk Hr]%andb_prop.
  rewrite (filter_nil_forallb (fun k => k ∉ (required ++ optional)%list) _ _) with (2 := Hk).
  2: { intros x Hx%bool_decide_eq_true. auto. }
  rewrite (filter_nil_forallb (fun p => args !! p = None) _ _) with (2 := Hr).
  2: { intros x [v Hx]%bool_decide_eq_true. congruence. }
  reflexivity.
Qed.

Lemma bind_kwargs_rejects fname required optional args (w : World E) :
  accepts required optional args = false →
  ∃ e, Orchestrator.bind_kwargs fname required optional args w = (Raise e, w)
       ∧ exn_cls e = TypeError.
Proof.
  unfold accepts, Orchestrator.bind_kwargs. intros Hacc.
  destruct (forallb _ (map fst _)) eqn:Hk; simpl in Hacc.
  - rewrite (filter_nil_forallb (fun k => k ∉ (required ++ optional)%list) _ _) with (2 := Hk).
    2: { intros x Hx%bool_decide_eq_true. auto. }
    destruct (filter_cons_forallb (fun p => args !! p = None)
                (fun p => bool_decide (is_Some (args !! p))) required)
      as (p & l' & ->); [|exact Hacc|].
    { intros x Hx%bool_decide_eq_false. by apply eq_None_not_Some. }
    eexists. split; reflexivity.
  - destruct (filter_cons_forallb (fun k => k ∉ (required ++ optional)%list)
                (fun k => bool_decide (k ∈ (required ++ optional)%list))
                (map fst (map_to_list args)))
      as (k & l' & ->); [|exact Hk|].
    { intros x Hx%bool_decide_eq_false. exact Hx. }
    eexists. split; reflexivity.
Qed.

(** What it means for the arguments to fit: every key names a parameter
    and every required parameter has a key. *)
Lemma accepts_spec required optional (args : gmap string value) :
  accepts required optional args = true
  ↔ (∀ k, is_Some (args !! k) → k ∈ (required ++ optional)%list)
    ∧ (∀ p, p ∈ required → is_Some (args !! p)).
Proof.
  unfold accepts. rewrite andb_true_iff, !forallb_forall. split.
  - intros [Hk Hr]. split.
    + intros k [v Hv]. eapply bool_decide_eq_true_1, Hk, in_map_iff.
      exists (k, v). split; [reflexivity|].
      by apply list_elem_of_In, elem_of_map_to_list.
    + intros p Hp. eapply bool_decide_eq_true_1, Hr. by apply list_elem_of_In.
  - intros [Hk Hr]. split.
    + intros k ([k' v] & <- & Hin)%in_map_iff. apply bool_decide_eq_true_2, Hk.
      apply list_elem_of_In, elem_of_map_to_list in Hin. simpl. eauto.
    + intros p Hp. apply bool_decide_eq_true_2, Hr. by apply list_elem_of_In.
Qed.

Lemma bind_kwargs_keeps_sent fname required optional args :
  keeps_sent (@Orchestrator.bind_kwargs E fname required optional args).
Proof.
  intros w. destruct (accepts required optional args) eqn:Ha.
  - rewrite bind_kwargs_accepts by assumption. reflexivity.
  - destruct (bind_kwargs_rejects fname _ _ _ w Ha) as (e & -> & _). reflexivity.
Qed.

End KwargsFacts.

#[export] Hint Resolve bind_kwargs_keeps_sent : keeps.

(** ** The registry and its three tools *)

Section ToolFacts.
Context {E : Type} (sv : Services E) (cfg : Orchestrator.config).

Local Abbreviation TOOLS := (Orchestrator.TOOL_EXECUTOR_MAP sv cfg).

Lemma TOOL_EXECUTOR_MAP_lookup tool_name :
  TOOLS !! tool_name =
    if decide (tool_name = "get_today_events")
    then Some (Orchestrator.call_get_today_events sv cfg)
    else if decide (tool_name = "get_top_github_recommendations")
    then Some (Orchestrator.call_get_top_github_recommendations sv cfg)
    else if decide (tool_name = "send_sms_notification")
    then Some (Orchestrator.call_send_sms_notification sv cfg)
    else None.
Proof.
  unfold Orchestrator.TOOL_EXECUTOR_MAP. simpl.
  repeat (rewrite lookup_insert; case_decide; subst;
          [repeat case_decide; congruence || reflexivity|]).
  rewrite lookup_empty. repeat case_decide; congruence.
Qed.

(** Exactly three names resolve: lookup is by exact match. *)
Lemma resolvable_names c :
  resolvable sv cfg c = true ↔
  name c ∈ ["get_today_events"; "get_top_github_recommendations"; "send_sms_notification"].
Proof.
  unfold resolvable. rewrite bool_decide_eq_true, TOOL_EXECUTOR_MAP_lookup.
  rewrite !elem_of_cons, elem_of_nil.
  repeat case_decide; split; intros Hc; eauto; intuition (try congruence).
  destruct Hc as [v Hc]. discriminate.
Qed.

Lemma get_today_events_keeps_sent self :
  keeps_sent (CalendarEventTool.get_today_events sv self).
Proof.
  unfold CalendarEventTool.get_today_events. keeps.
  all: intros w; reflexivity.
Qed.

Lemma send_sms_notification_keeps_sent self recipient body :
  keeps_sent (TwilioNotifierTool.send_sms_notification sv self recipient body).
Proof. unfold TwilioNotifierTool.send_sms_notification. keeps. Qed.

Lemma get_top_github_recommendations_keeps_sent self title k :
  keeps_sent (Orchestrator.GitHubMcpClient.get_top_github_recommendations sv self title k).
Proof.
  unfold Orchestrator.GitHubMcpClient.get_top_github_recommendations,
    Orchestrator.GitHubMcpClient.raise_for_status.
  keeps.
Qed.

Local Hint Resolve get_today_events_keeps_sent send_sms_notification_keeps_sent
  get_top_github_recommendations_keeps_sent : keeps.

Lemma tools_keep_sent tool_name (tool_func : gmap string value → M E value) args :
  TOOLS !! tool_name = Some tool_func → keeps_sent (tool_func args).
Proof.
  rewrite TOOL_EXECUTOR_MAP_lookup.
  repeat case_decide; intros [= <-];
    unfold Orchestrator.call_get_today_events,
      Orchestrator.call_get_top_github_recommendations,
      Orchestrator.call_send_sms_notification;
    keeps.
Qed.

(** The terminal tool, called with arguments that bind, returns a boolean
    whatever Twilio does. *)
Lemma call_send_sms_notification_bool args w :
  accepts ["recipient"; "message_body"] [] args = true →
  ∃ b w', Orchestrator.call_send_sms_notification sv cfg args w = (Ok (VBool b), w')
          ∧ (b = true ↔ accepted_by_twilio sv (Orchestrator.twilio_tool cfg)
                          (default VNone (args !! "recipient"))
                          (default VNone (args !! "message_body")) w).
Proof.
  intros Ha. unfold Orchestrator.call_send_sms_notification, Eff.bind.
  rewrite bind_kwargs_accepts by assumption.
  destruct (send_sms_notification_bool sv (Orchestrator.twilio_tool cfg)
              (default VNone (args !! "recipient"))
              (default VNone (args !! "message_body")) w) as (b & w' & -> & Hb).
  eauto.
Qed.

(** What the terminal tool hands back is never a dict. *)
Lemma call_send_sms_notification_value args w v w' :
  Orchestrator.call_send_sms_notification sv cfg args w = (Ok v, w') →
  types.is_response v = false.
Proof.
  unfold Orchestrator.call_send_sms_notification, Eff.bind.
  destruct (Orchestrator.bind_kwargs _ _ _ args w) as [[[]|e] w0]; [|discriminate].
  destruct (send_sms_notification_bool sv (Orchestrator.twilio_tool cfg)
              (default VNone (args !! "recipient"))
              (default VNone (args !! "message_body")) w0) as (b & w1 & -> & _).
  intros [= <- _]. reflexivity.
Qed.

Lemma call_send_sms_notification_rejects args w :
  accepts ["recipient"; "message_body"] [] args = false →
  ∃ e, Orchestrator.call_send_sms_notification sv cfg args w = (Raise e, w).
Proof.
  intros Ha. unfold Orchestrator.call_send_sms_notification, Eff.bind.
  destruct (bind_kwargs_rejects "TwilioNotifierTool.send_sms_notification" _ _ _ w Ha)
    as (e & -> & _).
  eauto.
Qed.

End ToolFacts.

(** ** One turn of the loop *)

Section DispatchFacts.
Context {E : Type} (sv : Services E) (cfg : Orchestrator.config).

Local Abbreviation TOOLS := (Orchestrator.TOOL_EXECUTOR_MAP sv cfg).
Local Abbreviation success_status := (Orchestrator.success_status cfg).

Lemma dispatch_call_unresolved c rs w :
  TOOLS !! name c = None →
  Orchestrator.dispatch_call sv cfg c rs w
  = (Ok (rs, Orchestrator.Continue),
     logged w WARNING ("Tool " ++ name c ++ " not found in map.")).
Proof. intros Hn. unfold Orchestrator.dispatch_call. cbv zeta. rewrite Hn. reflexivity. Qed.

Lemma dispatch_call_raised c rs w (tool_func : gmap string value → M E value) e w1 :
  TOOLS !! name c = Some tool_func →
  tool_func (args c) w = (Raise e, w1) →
  Orchestrator.dispatch_call sv cfg c rs w
  = (Ok ((rs ++ [Part (name c) (Orchestrator.error_payload e)])%list, Orchestrator.Continue),
     logged w1 ERROR ("Error executing tool " ++ name c ++ ": " ++ exn_str e)).
Proof.
  intros Hn Hf. unfold Orchestrator.dispatch_call. cbv zeta. rewrite Hn.
  unfold Eff.try_except, Eff.bind. rewrite Hf. reflexivity.
Qed.

(** The tool returned a value a function response takes. *)
Lemma dispatch_call_returned c rs w (tool_func : gmap string value → M E value) v w1 :
  TOOLS !! name c = Some tool_func →
  tool_func (args c) w = (Ok v, w1) →
  types.is_response v = true →
  ∃ w2, Orchestrator.dispatch_call sv cfg c rs w
        = (Ok ((rs ++ [Part (name c) v])%list,
               if String.eqb (name c) "send_sms_notification"
               then Orchestrator.Return (Some success_status)
               else Orchestrator.Continue), w2)
        ∧ ext w2 = ext w1 ∧ sent w2 = sent w1.
Proof.
  intros Hn Hf Hv. unfold Orchestrator.dispatch_call. cbv zeta. rewrite Hn.
  unfold Eff.try_except, Eff.bind, types.Part.from_function_response.
  rewrite Hf. simpl. rewrite Hv. simpl.
  destruct (String.eqb (name c) "send_sms_notification"); simpl; eauto.
Qed.

(** The tool returned a value a function response refuses: the
    [ValidationError] is raised inside the [try], after the record of the
    execution, and the call is recorded as failed. *)
Lemma dispatch_call_refused c rs w (tool_func : gmap string value → M E value) v w1 :
  TOOLS !! name c = Some tool_func →
  tool_func (args c) w = (Ok v, w1) →
  types.is_response v = false →
  Orchestrator.dispatch_call sv cfg c rs w
  = (Ok ((rs ++ [Part (name c) (Orchestrator.error_payload (types.ValidationError sv v))])%list,
         Orchestrator.Continue),
     with_logs w1 [executed sv c v; failed c (types.ValidationError sv v)]).
Proof.
  intros Hn Hf Hv. unfold Orchestrator.dispatch_call. cbv zeta. rewrite Hn.
  unfold Eff.try_except, Eff.bind, types.Part.from_function_response.
  rewrite Hf. simpl. rewrite Hv. simpl.
  unfold with_logs. simpl. rewrite <- app_assoc. reflexivity.
Qed.

Lemma dispatch_call_keeps_sent c rs :
  keeps_sent (Orchestrator.dispatch_call sv cfg c rs).
Proof.
  unfold Orchestrator.dispatch_call, types.Part.from_function_response. cbv zeta.
  destruct (TOOLS !! name c) as [tool_func|] eqn:Hn; keeps.
  eapply tools_keep_sent; eassumption.
Qed.

(** Every call of a turn lets the turn go on, and adds one part when its
    name resolves and none otherwise. *)
Lemma dispatch_call_spec c rs w :
  ∃ ps w', Orchestrator.dispatch_call sv cfg c rs w
           = (Ok ((rs ++ ps)%list, Orchestrator.Continue), w')
           ∧ map part_name ps = map name (filter (fun c => resolvable sv cfg c = true) [c]).
Proof.
  rewrite filter_cons, filter_nil. unfold resolvable.
  destruct (TOOLS !! name c) as [tool_func|] eqn:Hn.
  - rewrite decide_True by (apply bool_decide_eq_true; eauto).
    destruct (tool_func (args c) w) as [[v|e] w1] eqn:Hf.
    + destruct (types.is_response v) eqn:Hv.
      * destruct (dispatch_call_returned c rs w _ _ _ Hn Hf Hv) as (w2 & -> & _).
        destruct (String.eqb_spec (name c) "send_sms_notification") as [Hsms|Hsms];
          [|eauto].
        rewrite TOOL_EXECUTOR_MAP_lookup, Hsms in Hn. simpl in Hn. injection Hn as <-.
        apply call_send_sms_notification_value in Hf. congruence.
      * rewrite (dispatch_call_refused c rs w _ _ _ Hn Hf Hv). eauto.
    + rewrite (dispatch_call_raised c rs w _ _ _ Hn Hf). eauto.
  - rewrite decide_False by (rewrite bool_decide_eq_true; intros [? ?]; discriminate).
    rewrite (dispatch_call_unresolved c rs w Hn).
    exists [], (logged w WARNING ("Tool " ++ name c ++ " not found in map.")).
    rewrite app_nil_r. split; reflexivity.
Qed.

Lemma dispatch_calls_keeps_sent calls rs :
  keeps_sent (Orchestrator.dispatch_calls sv cfg calls rs).
Proof.
  revert rs. induction calls as [|c calls IH]; intros rs; simpl; keeps;
    auto using dispatch_call_keeps_sent.
Qed.

(** A whole turn: every call is reached, and the parts produced are those
    of the resolvable calls, in call order. *)
Lemma dispatch_calls_spec calls rs w :
  ∃ ps w', Orchestrator.dispatch_calls sv cfg calls rs w
           = (Ok ((rs ++ ps)%list, Orchestrator.Continue), w')
           ∧ map part_name ps
             = map name (filter (fun c => resolvable sv cfg c = true) calls).
Proof.
  revert rs w. induction calls as [|c calls IH]; intros rs w; simpl.
  - exists [], w. rewrite app_nil_r. split; reflexivity.
  - unfold Eff.bind.
    destruct (dispatch_call_spec c rs w) as (ps & w1 & -> & Hps).
    destruct (IH (rs ++ ps)%list w1) as (ps' & w2 & -> & Hps').
    exists (ps ++ ps')%list, w2. rewrite app_assoc. split; [reflexivity|].
    rewrite map_app, Hps, Hps'.
    change (c :: calls) with ([c] ++ calls)%list.
    rewrite filter_app, map_app. reflexivity.
Qed.

End DispatchFacts.

#[export] Hint Resolve dispatch_call_keeps_sent dispatch_calls_keeps_sent : keeps.

(** ** The loop and the run *)

Section LoopFacts.
Context {E : Type} (sv : Services E) (cfg : Orchestrator.config).

Local Abbreviation success_status := (Orchestrator.success_status cfg).
Local Abbreviation failure_status := Orchestrator.failure_status.

Lemma turn_keeps_sent r : keeps_sent (Orchestrator.turn sv cfg r).
Proof.
  unfold Orchestrator.turn. destruct (function_calls r); keeps.
Qed.

Local Hint Resolve turn_keeps_sent : keeps.

Lemma tool_loop_keeps_sent n r : keeps_sent (Orchestrator.tool_loop sv cfg n r).
Proof. induction n as [|n IH]; simpl; keeps. Qed.

(** A turn with tool calls never ends the loop. *)
Lemma turn_tool_calls r w :
  function_calls r ≠ [] →
  ∃ w', Orchestrator.turn sv cfg r w = (Ok Orchestrator.Continue, w').
Proof.
  intros Hne. unfold Orchestrator.turn.
  destruct (function_calls r) as [|c calls] eqn:Hc; [congruence|].
  unfold Eff.bind.
  destruct (dispatch_calls_spec sv cfg (c :: calls) [] w) as (ps & w' & -> & _).
  simpl. eauto.
Qed.

Lemma turn_text r w :
  function_calls r = [] →
  Orchestrator.turn sv cfg r w
  = (Ok (Orchestrator.Return (text r)),
     logged w INFO ("Agent finished planning. Final response:
" ++ Orchestrator.fmt (text r))).
Proof. intros Hc. unfold Orchestrator.turn. rewrite Hc. reflexivity. Qed.

(** A reply with tool calls uses up the budget. *)
Lemma tool_loop_exhausted n r w :
  function_calls r ≠ [] →
  ∃ w', Orchestrator.tool_loop sv cfg n r w = (Ok (Some failure_status), w')
        ∧ last (logs w') = Some (Log ERROR "Agent exceeded the maximum loop iterations.").
Proof.
  intros Hne. revert w. induction n as [|n IH]; intros w; simpl.
  - eexists. split; [reflexivity|]. simpl. apply last_snoc.
  - unfold Eff.bind. destruct (turn_tool_calls r w Hne) as (w' & ->). apply IH.
Qed.

Lemma tool_loop_text n r w :
  function_calls r = [] →
  ∃ w', Orchestrator.tool_loop sv cfg (S n) r w = (Ok (text r), w').
Proof.
  intros Hc. simpl. unfold Eff.bind. rewrite (turn_text r w Hc). eauto.
Qed.

(** The loop never lets an exception out. *)
Lemma tool_loop_total n r w :
  ∃ v w', Orchestrator.tool_loop sv cfg n r w = (Ok v, w').
Proof.
  destruct (function_calls r) as [|c calls] eqn:Hc.
  - destruct n as [|n]; [simpl; eauto|].
    destruct (tool_loop_text n r w Hc) as (w' & ->). eauto.
  - destruct (tool_loop_exhausted n r w) as (w' & -> & _); [congruence|eauto].
Qed.

Lemma run_agent_first_reply w r w1 :
  first_reply sv cfg w r w1 →
  Orchestrator.run_agent sv cfg w = Orchestrator.tool_loop sv cfg 15 r w1.
Proof.
  intros (e1 & e2 & Hc & Hs & ->).
  unfold Orchestrator.run_agent, Orchestrator.session_send_message,
    Eff.bind, Eff.call, Eff.record_sent.
  rewrite Hc. cbn [ext logs sent GITHUB_SEARCHES]. rewrite Hs. reflexivity.
Qed.

Lemma first_reply_sent w r w1 :
  first_reply sv cfg w r w1 →
  sent w1 = (sent w ++ [Prompt (Orchestrator.initial_prompt cfg)])%list.
Proof. intros (e1 & e2 & _ & _ & ->). reflexivity. Qed.

(** What the chat session has been handed when [run_agent] ends. *)
Lemma run_agent_sent w :
  sent (Orchestrator.run_agent sv cfg w).2 = sent w
  ∨ sent (Orchestrator.run_agent sv cfg w).2
    = (sent w ++ [Prompt (Orchestrator.initial_prompt cfg)])%list.
Proof.
  unfold Orchestrator.run_agent, Orchestrator.session_send_message,
    Eff.bind, Eff.call, Eff.record_sent.
  destruct (chats_create sv _ _ _ (ext w)) as [[[]|e] e1];
    cbn [fst snd ext logs sent GITHUB_SEARCHES]; [|auto].
  destruct (send_message sv _ e1) as [[r|e] e2];
    cbn [fst snd ext logs sent GITHUB_SEARCHES]; [|auto].
  right. rewrite tool_loop_keeps_sent. reflexivity.
Qed.

Lemma failure_status_distinct cfg' :
  failure_status ≠ Orchestrator.success_status cfg'.
Proof. unfold Orchestrator.failure_status, Orchestrator.success_status. discriminate. Qed.

Lemma terminal_call_name c : terminal_call c = true → name c = "send_sms_notification".
Proof. unfold terminal_call. intros [Hn _]%andb_prop. by apply String.eqb_eq. Qed.

(** A call of the terminal tool returns exactly when its arguments bind. *)
Lemma terminal_call_returns c w :
  name c = "send_sms_notification" →
  terminal_call c = true
  ↔ ∃ v w', Orchestrator.call_send_sms_notification sv cfg (args c) w = (Ok v, w').
Proof.
  intros Hn. unfold terminal_call. rewrite Hn. simpl. split.
  - intros Ha. destruct (call_send_sms_notification_bool sv cfg _ w Ha) as (b & w' & -> & _).
    eauto.
  - intros (v & w' & Hv). destruct (accepts _ _ (args c)) eqn:Ha; [reflexivity|].
    destruct (call_send_sms_notification_rejects sv cfg _ w Ha) as (e & He). congruence.
Qed.

(** A call of the terminal tool that returns: the boolean cannot be put in
    a function response, so the call is recorded as failed and the turn
    goes on. *)
Lemma dispatch_terminal_call c rs w :
  terminal_call c = true →
  ∃ b w1, Orchestrator.call_send_sms_notification sv cfg (args c) w = (Ok (VBool b), w1)
          ∧ Orchestrator.dispatch_call sv cfg c rs w
            = (Ok ((rs ++ [Part "send_sms_notification"
                             (Orchestrator.error_payload
                                (types.ValidationError sv (VBool b)))])%list,
                   Orchestrator.Continue),
               with_logs w1 [executed sv c (VBool b);
                             failed c (types.ValidationError sv (VBool b))])
          ∧ (b = true ↔ accepted_by_twilio sv (Orchestrator.twilio_tool cfg)
                          (default VNone (args c !! "recipient"))
                          (default VNone (args c !! "message_body")) w).
Proof.
  intros Ht. pose proof (terminal_call_name c Ht) as Hn.
  apply andb_prop in Ht as [_ Ha].
  destruct (call_send_sms_notification_bool sv cfg _ w Ha) as (b & w1 & Hb & Hiff).
  exists b, w1. split; [exact Hb|]. split; [|exact Hiff].
  rewrite <- Hn.
  apply (dispatch_call_refused sv cfg c rs w
           (Orchestrator.call_send_sms_notification sv cfg) (VBool b) w1);
    [|assumption|reflexivity].
  rewrite TOOL_EXECUTOR_MAP_lookup, Hn. reflexivity.
Qed.

End LoopFacts.

(** ** Scoring *)

Section ScoreFacts.

Lemma map_chars_compose f g s :
  PyStr.map_chars f (PyStr.map_chars g s) = PyStr.map_chars (fun c => f (g c)) s.
Proof. induction s as [|c s IH]; simpl; [reflexivity|]. by rewrite IH. Qed.

Lemma prefix_agree f g p p' s :
  ScoreSpec.agree f g p p' →
  String.prefix p (PyStr.map_chars f s) = String.prefix p' (PyStr.map_chars g s).
Proof.
  revert p p'. induction s as [|c s IH]; intros [|a p] [|a' p']; simpl;
    try tauto; try reflexivity.
  intros [Hc Hp].
  destruct (ascii_dec a (f c)) as [Ha|Ha], (ascii_dec a' (g c)) as [Ha'|Ha'].
  - apply IH, Hp.
  - destruct Ha'. by apply Hc.
  - destruct Ha. by apply Hc.
  - reflexivity.
Qed.

Lemma contains_agree f g p p' s :
  ScoreSpec.agree f g p p' →
  PyStr.contains p (PyStr.map_chars f s) = PyStr.contains p' (PyStr.map_chars g s).
Proof.
  intros Hp. induction s as [|c s IH].
  - apply (prefix_agree f g p p' EmptyString Hp).
  - change (PyStr.contains p (PyStr.map_chars f (String c s)))
      with (String.prefix p (PyStr.map_chars f (String c s))
            || PyStr.contains p (PyStr.map_chars f s)).
    change (PyStr.contains p' (PyStr.map_chars g (String c s)))
      with (String.prefix p' (PyStr.map_chars g (String c s))
            || PyStr.contains p' (PyStr.map_chars g s)).
    rewrite IH, (prefix_agree f g p p' (String c s) Hp). reflexivity.
Qed.

(** A letter of the description becomes the capital [a] by [lower] then
    [upper] exactly when [lower] makes it the small [a']. *)
Ltac same_letter :=
  intros [[] [] [] [] [] [] [] []]; vm_compute; split; intros Heq;
  first [reflexivity | discriminate Heq].

Lemma README_agree :
  ScoreSpec.agree (fun c => PyStr.upper_char (PyStr.lower_char c)) PyStr.lower_char
    "README" "readme".
Proof. simpl. do 6 (split; [same_letter|]). exact I. Qed.

(** [description.upper()] of the lowercased description holds ["README"]
    exactly when the description holds it in some mix of cases. *)
Lemma README_upper_lower descr :
  PyStr.contains "README" (PyStr.upper (PyStr.lower descr))
  = ScoreSpec.contains_ci "README" descr.
Proof.
  unfold ScoreSpec.contains_ci, PyStr.upper, PyStr.lower at 1 3.
  rewrite map_chars_compose.
  apply (contains_agree _ _ "README" "readme" descr README_agree).
Qed.

(** The keyword loop adds 5 for each keyword found. *)
Lemma add_keywords_count kws descr score :
  (GitHubMcpTool.add_keywords kws descr score
   == score + 5 * inject_Z (Z.of_nat
                  (length (filter (fun kw => PyStr.contains kw descr = true) kws))))%Q.
Proof.
  revert score. induction kws as [|kw kws IH]; intros score; simpl.
  - change (inject_Z (Z.of_nat 0)) with 0%Q. ring.
  - rewrite IH, filter_cons.
    destruct (PyStr.contains kw descr) eqn:Hkw.
    + rewrite decide_True by reflexivity.
      cbn [length]. rewrite Nat2Z.inj_succ, <- Z.add_1_r, inject_Z_plus.
      change (inject_Z 1) with 1%Q. ring.
    + rewrite decide_False by discriminate. ring.
Qed.

End ScoreFacts.

(** ** Ranking: the stable sort by decreasing key *)

Section SortFacts.
Context {A : Type} (key : A → Q).

Lemma insert_desc_perm x l : Permutation (GitHubMcpTool.insert_desc key x l) (x :: l).
Proof.
  induction l as [|y l IH]; simpl; [reflexivity|].
  destruct (Qle_bool (key y) (key x)); [reflexivity|].
  rewrite IH. apply perm_swap.
Qed.

Lemma sorted_desc_perm l : Permutation (GitHubMcpTool.sorted_desc key l) l.
Proof.
  induction l as [|x l IH]; simpl; [reflexivity|].
  rewrite insert_desc_perm. by constructor.
Qed.

Lemma sorted_desc_length l : length (GitHubMcpTool.sorted_desc key l) = length l.
Proof. apply Permutation_length, sorted_desc_perm. Qed.

(** Sorting by a key that looks through [f] commutes with mapping [f]. *)
Lemma insert_desc_map {B} (f : B → A) x l :
  GitHubMcpTool.insert_desc key (f x) (map f l)
  = map f (GitHubMcpTool.insert_desc (fun b => key (f b)) x l).
Proof.
  induction l as [|y l IH]; simpl; [reflexivity|].
  destruct (Qle_bool (key (f y)) (key (f x))); simpl; [reflexivity|].
  by rewrite IH.
Qed.

Lemma sorted_desc_map {B} (f : B → A) l :
  GitHubMcpTool.sorted_desc key (map f l)
  = map f (GitHubMcpTool.sorted_desc (fun b => key (f b)) l).
Proof.
  induction l as [|x l IH]; simpl; [reflexivity|].
  by rewrite IH, insert_desc_map.
Qed.

End SortFacts.

Section RankFacts.
Context {A : Type} (key : A → Q).

Local Abbreviation key2 := (fun p : nat * A => key p.2).
Local Abbreviation before := (pair_before key).

(** An element that was met before all of [l] and whose key is not smaller
    goes in front. *)
Lemma pair_before_le (p q : nat * A) :
  (key q.2 <= key p.2)%Q → (p.1 < q.1)%nat → before p q.
Proof.
  intros Hle Hlt. unfold pair_before.
  destruct (Qlt_le_dec (key q.2) (key p.2)) as [Hq|Hq]; [by left|].
  right. split; [|assumption]. by apply Qle_antisym.
Qed.

Lemma pair_before_key (p q : nat * A) : before p q → (key q.2 <= key p.2)%Q.
Proof.
  intros [Hlt | [Heq _]]; [by apply Qlt_le_weak|].
  rewrite Heq. apply Qle_refl.
Qed.

Lemma insert_desc_sorted p l :
  StronglySorted before l →
  Forall (fun q => (p.1 < q.1)%nat) l →
  StronglySorted before (GitHubMcpTool.insert_desc key2 p l).
Proof.
  induction l as [|y l IH]; simpl; intros Hs Hp.
  - repeat constructor.
  - apply StronglySorted_inv in Hs as [Hs Hy].
    apply Forall_cons in Hp as [Hpy Hp].
    destruct (Qle_bool (key y.2) (key p.2)) eqn:Hle.
    + apply Qle_bool_iff in Hle.
      constructor; [by constructor|].
      constructor; [by apply pair_before_le|].
      apply Forall_forall. intros z Hz.
      apply pair_before_le; [|exact (proj1 (Forall_forall _ _) Hp _ Hz)].
      apply Qle_trans with (key y.2); [|assumption].
      apply pair_before_key. exact (proj1 (Forall_forall _ _) Hy _ Hz).
    + constructor; [by apply IH|].
      rewrite (insert_desc_perm key2 p l).
      constructor; [|assumption].
      left. apply Qnot_le_lt. intros Hc. apply Qle_bool_iff in Hc. congruence.
Qed.

Lemma sorted_desc_sorted l :
  StronglySorted (fun p q : nat * A => (p.1 < q.1)%nat) l →
  StronglySorted before (GitHubMcpTool.sorted_desc key2 l).
Proof.
  induction l as [|p l IH]; simpl; intros Hs; [constructor|].
  apply StronglySorted_inv in Hs as [Hs Hp].
  apply insert_desc_sorted; [by apply IH|].
  by rewrite (sorted_desc_perm key2 l).
Qed.

(** Facts on the positions. *)
Lemma enumerate_from_snd i (l : list A) : map snd (enumerate_from i l) = l.
Proof. revert i. induction l as [|x l IH]; intros i; simpl; [reflexivity|]. by rewrite IH. Qed.

Lemma enumerate_from_fst i (l : list A) : map fst (enumerate_from i l) = seq i (length l).
Proof. revert i. induction l as [|x l IH]; intros i; simpl; [reflexivity|]. by rewrite IH. Qed.

Lemma enumerate_from_lookup i (l : list A) :
  Forall (fun p => (i ≤ p.1)%nat ∧ l !! (p.1 - i)%nat = Some p.2) (enumerate_from i l).
Proof.
  revert i. induction l as [|x l IH]; intros i; simpl; constructor.
  - simpl. split; [lia|]. by rewrite Nat.sub_diag.
  - eapply Forall_impl; [apply (IH (S i))|].
    intros [j y] [Hj Hy]. simpl in *. split; [lia|].
    replace (j - i)%nat with (S (j - S i)) by lia. exact Hy.
Qed.

Lemma enumerate_from_increasing i (l : list A) :
  StronglySorted (fun p q : nat * A => (p.1 < q.1)%nat) (enumerate_from i l).
Proof.
  revert i. induction l as [|x l IH]; intros i; simpl; constructor; [apply IH|].
  eapply Forall_impl; [apply (enumerate_from_lookup (S i) l)|].
  intros [j y] [Hj _]. simpl in *. lia.
Qed.

(** The ranking of [l]: its positions and elements, stably sorted. *)
Lemma ranking_of l :
  ∃ ranked : list (nat * A),
    map snd ranked = GitHubMcpTool.sorted_desc key l
    ∧ Permutation (map fst ranked) (seq 0 (length l))
    ∧ Forall (fun p => l !! p.1 = Some p.2) ranked
    ∧ StronglySorted before ranked.
Proof.
  exists (GitHubMcpTool.sorted_desc key2 (enumerate_from 0 l)). repeat split.
  - rewrite <- (enumerate_from_snd 0 l) at 2. by rewrite sorted_desc_map.
  - rewrite <- (enumerate_from_fst 0 l). apply Permutation_map, sorted_desc_perm.
  - rewrite (sorted_desc_perm key2).
    eapply Forall_impl; [apply (enumerate_from_lookup 0 l)|].
    intros [j y] [_ Hy]. simpl in *. by rewrite Nat.sub_0_r in Hy.
  - apply sorted_desc_sorted, enumerate_from_increasing.
Qed.

Lemma ranked_positions l (ranked : list (nat * A)) :
  Forall (fun p => l !! p.1 = Some p.2) ranked →
  StronglySorted before ranked →
  picks l (map fst ranked) (map snd ranked)
  ∧ StronglySorted (ranks_before key l) (map fst ranked)
  ∧ StronglySorted (fun a b => (key b <= key a)%Q) (map snd ranked).
Proof.
  unfold picks. induction ranked as [|p ranked IH]; simpl; intros Hl Hs.
  - repeat constructor.
  - apply Forall_cons in Hl as [Hp Hl].
    apply StronglySorted_inv in Hs as [Hs Hb].
    destruct (IH Hl Hs) as (IH1 & IH2 & IH3).
    split; [by constructor|]. split; constructor; try assumption.
    + apply Forall_forall. intros j Hj.
      apply list_elem_of_In, in_map_iff in Hj as ([j' y] & <- & Hq).
      apply list_elem_of_In in Hq.
      exists p.2, y. split; [assumption|].
      split; [exact (proj1 (Forall_forall _ _) Hl _ Hq)|].
      exact (proj1 (Forall_forall _ _) Hb _ Hq).
    + apply Forall_forall. intros y Hy.
      apply list_elem_of_In, in_map_iff in Hy as (q & <- & Hq).
      apply list_elem_of_In in Hq.
      apply pair_before_key. exact (proj1 (Forall_forall _ _) Hb _ Hq).
Qed.

End RankFacts.

Section RecommendationFacts.
Context {E : Type} (sv : Services E) (self : GitHubMcpTool.t).

Lemma StronglySorted_take {A} (R : relation A) n l :
  StronglySorted R l → StronglySorted R (take n l).
Proof.
  intros Hs. rewrite <- (take_drop n l) in Hs.
  by apply StronglySorted_app_1_l in Hs.
Qed.

Lemma slice_to_nonneg {A} (l : list A) k : (0 <= k)%Z → PyStr.slice_to l k = take (Z.to_nat k) l.
Proof.
  intros Hk. unfold PyStr.slice_to.
  destruct (Z.ltb_spec k 0); [lia|reflexivity].
Qed.

(** The recommendations are the front of the stable sort of the analyzed
    search results. *)
Lemma get_top_recommendations_unfold event_title max_results w :
  ∃ repos w1,
    GitHubMcpTool.search_repositories sv self event_title
      (GitHubMcpTool._extract_keywords event_title) w = (Ok repos, w1)
    ∧ GitHubMcpTool.get_top_recommendations sv self event_title max_results w
      = (Ok (PyStr.slice_to
               (GitHubMcpTool.sorted_desc GitHubMcpTool.a_score
                  (map GitHubMcpTool.analyze_repository repos)) max_results), w1).
Proof.
  unfold GitHubMcpTool.get_top_recommendations, Eff.bind.
  destruct (search_repositories_cases sv self event_title
              (GitHubMcpTool._extract_keywords event_title) w) as (w1 & ->).
  eauto.
Qed.

(** Through the route, the bound lies between 1 and 10. *)
Lemma get_top_recommendation_endpoint_bound event_title max_results w results w' :
  GitHubMcpTool.get_top_recommendation_endpoint sv self event_title max_results w
  = (Ok (GitHubMcpTool.Results results), w') →
  (1 <= max_results <= 10)%Z ∧ (Z.of_nat (length results) <= max_results)%Z.
Proof.
  unfold GitHubMcpTool.get_top_recommendation_endpoint.
  destruct (Z.ltb_spec 0 max_results) as [Hlo|Hlo]; simpl; [|discriminate].
  destruct (Z.leb_spec max_results 10) as [Hhi|Hhi]; simpl; [|discriminate].
  unfold Eff.try_except, Eff.bind.
  destruct (get_top_recommendations_unfold event_title max_results w)
    as (repos & w1 & _ & ->).
  simpl. intros [= <- <-]. split; [lia|].
  rewrite slice_to_nonneg by lia.
  pose proof (firstn_le_length (Z.to_nat max_results)
                (GitHubMcpTool.sorted_desc GitHubMcpTool.a_score
                   (map GitHubMcpTool.analyze_repository repos))).
  lia.
Qed.

End RecommendationFacts.

(** * The claims *)

Section Claims.
Context {E : Type} (sv : Services E).

(** C10.  [send_sms_notification] returns a boolean and never raises, for
    every recipient and message body: [True] when the Twilio client accepts
    the message, [False] when the client raises.  A rejected message is
    still an invocation that returned, and the orchestrator treats it as it
    treats an accepted one: whichever boolean came back, the function
    response refuses it inside the [try], the call is recorded as failed
    with that [ValidationError] and the turn goes on.  The terminal check,
    which does not look at the boolean, is reached for neither. *)
Theorem send_sms_notification_never_raises (cfg : Orchestrator.config)
    (recipient body : value) (w : World E) :
  (∃ b w', TwilioNotifierTool.send_sms_notification sv (Orchestrator.twilio_tool cfg)
             recipient body w = (Ok b, w')
           ∧ (b = true ↔ accepted_by_twilio sv (Orchestrator.twilio_tool cfg) recipient body w))
  ∧ (∀ c rs, terminal_call c = true →
       ∃ b w1, Orchestrator.call_send_sms_notification sv cfg (args c) w = (Ok (VBool b), w1)
               ∧ Orchestrator.dispatch_call sv cfg c rs w
                 = (Ok ((rs ++ [Part "send_sms_notification"
                                  (Orchestrator.error_payload
                                     (types.ValidationError sv (VBool b)))])%list,
                        Orchestrator.Continue),
                    with_logs w1 [executed sv c (VBool b);
                                  failed c (types.ValidationError sv (VBool b))])
               ∧ (b = true ↔ accepted_by_twilio sv (Orchestrator.twilio_tool cfg)
                               (default VNone (args c !! "recipient"))
                               (default VNone (args c !! "message_body")) w)).
Proof.
  split.
  - apply send_sms_notification_bool.
  - intros c rs Ht. apply dispatch_terminal_call. assumption.
Qed.

(** C2.  When the calendar answers and every item can be processed,
    [get_today_events] falls off the end of the function and returns
    [None]: neither the processed events nor an empty sequence. *)
Theorem get_today_events_success_returns_None (self : CalendarEventTool.t)
    (w : World E) er e' processed_events :
  events_list_execute sv (today_query sv self w) (ext w) = (Ok er, e') →
  CalendarEventTool.process_events (default [] (items er)) [] = Ok processed_events →
  ∃ w', CalendarEventTool.get_today_events sv self w = (Ok VNone, w').
Proof.
  unfold CalendarEventTool.get_today_events, today_query, CalendarEventTool.replace,
    Eff.bind, Eff.try_except, Eff.call.
  intros He Hp. cbn [fst snd ext]. rewrite He. cbn. rewrite Hp.
  case_bool_decide; cbn; eauto.
Qed.

(** C8.  In the orchestrator's client a search error (the request raises a
    [RequestException], or the endpoint answers with an error status) is
    caught and logged, and the function then returns [None], not an empty
    sequence. *)
Theorem client_search_error_returns_None (self : Orchestrator.GitHubMcpClient.t)
    (event_title max_results : value) (w : World E) :
  mcp_search_error sv self event_title max_results w →
  ∃ w', Orchestrator.GitHubMcpClient.get_top_github_recommendations sv self
          event_title max_results w = (Ok VNone, w').
Proof.
  unfold Orchestrator.GitHubMcpClient.get_top_github_recommendations,
    Orchestrator.GitHubMcpClient.raise_for_status, Eff.bind, Eff.try_except, Eff.call,
    Eff.logger.
  intros [(e & e' & He & Hc) | (resp & e' & He & Hlo & Hhi)];
    cbn [fst snd ext]; rewrite He; cbn.
  - rewrite Hc. eauto.
  - apply Z.leb_le in Hlo. apply Z.ltb_lt in Hhi. rewrite Hlo, Hhi. cbn. eauto.
Qed.

(** C3.  A call of [send_sms_notification] that is invoked successfully
    (its arguments bind; the tool itself never raises) does not end the
    run.  The boolean the tool returns is refused by the function response
    that is built inside the [try], before the [return] of the success
    status: the call is recorded as failed and the turn goes on.  So with
    such a call in the reply [run_agent] goes through every round of the
    loop, calling the tool again in each, and returns the failure status,
    which is not the success status; the same holds for every budget. *)
Theorem successful_sms_does_not_end_run (cfg : Orchestrator.config) (w : World E) r w1 c :
  first_reply sv cfg w r w1 →
  c ∈ function_calls r →
  terminal_call c = true →
  (∃ w', Orchestrator.run_agent sv cfg w = (Ok (Some Orchestrator.failure_status), w')
         ∧ Orchestrator.failure_status ≠ Orchestrator.success_status cfg
         ∧ sent w' = sent w1)
  ∧ (∀ n wq, ∃ w', Orchestrator.tool_loop sv cfg n r wq
                   = (Ok (Some Orchestrator.failure_status), w'))
  ∧ (∀ rs wq, ∃ b wq',
       Orchestrator.dispatch_call sv cfg c rs wq
       = (Ok ((rs ++ [Part "send_sms_notification"
                        (Orchestrator.error_payload (types.ValidationError sv (VBool b)))])%list,
              Orchestrator.Continue), wq')).
Proof.
  intros Hfirst Hin Ht.
  assert (function_calls r ≠ []) as Hne.
  { intros Hnil. rewrite Hnil in Hin. by apply elem_of_nil in Hin. }
  split; [|split].
  - rewrite (run_agent_first_reply sv cfg w r w1 Hfirst).
    pose proof (tool_loop_keeps_sent sv cfg 15 r w1) as Hsent.
    destruct (tool_loop_exhausted sv cfg 15 r w1 Hne) as (w' & Hrun & _).
    rewrite Hrun in Hsent |- *. exists w'.
    split; [reflexivity|]. split; [apply failure_status_distinct | exact Hsent].
  - intros n wq. destruct (tool_loop_exhausted sv cfg n r wq Hne) as (w' & Hrun & _).
    eauto.
  - intros rs wq.
    destruct (dispatch_terminal_call sv cfg c rs wq Ht) as (b & wq' & _ & Hd & _).
    eauto.
Qed.

(** C6.  When the model's reply holds tool calls and none of them is a
    call of the terminal tool that returns, the loop runs through its 15
    rounds and [run_agent] returns (it does not raise) the failure status,
    after logging an error; the failure status differs from the success
    status of every configuration. *)
Theorem run_agent_exhaustion (cfg : Orchestrator.config) (w : World E) r w1 :
  first_reply sv cfg w r w1 →
  function_calls r ≠ [] →
  existsb terminal_call (function_calls r) = false →
  ∃ w', Orchestrator.run_agent sv cfg w = (Ok (Some Orchestrator.failure_status), w')
        ∧ last (logs w') = Some (Log ERROR "Agent exceeded the maximum loop iterations.")
        ∧ ∀ cfg', Orchestrator.failure_status ≠ Orchestrator.success_status cfg'.
Proof.
  intros Hfirst Hne Ht.
  rewrite (run_agent_first_reply sv cfg w r w1 Hfirst).
  destruct (tool_loop_exhausted sv cfg 15 r w1 Hne) as (w' & Hrun & Hlog).
  exists w'. split; [assumption|]. split; [assumption|].
  apply failure_status_distinct.
Qed.

(** C7.  When the tool a call resolves to raises, the orchestrator records
    for that call a part whose payload is the dict with ["error"] the
    message of the exception and ["status"] ["failed"], logs the error and
    goes on with the remaining calls of the turn; no round of the loop lets
    an exception out. *)
Theorem tool_exception_is_captured (cfg : Orchestrator.config) c calls rs (w : World E)
    (tool_func : gmap string value → M E value) e w1 :
  Orchestrator.TOOL_EXECUTOR_MAP sv cfg !! name c = Some tool_func →
  tool_func (args c) w = (Raise e, w1) →
  let failed :=
    Part (name c) (VDict [("error", VStr (exn_str e)); ("status", VStr "failed")]) in
  let w2 := logged w1 ERROR ("Error executing tool " ++ name c ++ ": " ++ exn_str e) in
  Orchestrator.dispatch_call sv cfg c rs w
  = (Ok ((rs ++ [failed])%list, Orchestrator.Continue), w2)
  ∧ Orchestrator.dispatch_calls sv cfg (c :: calls) rs w
    = Orchestrator.dispatch_calls sv cfg calls (rs ++ [failed])%list w2
  ∧ ∀ n r wq, ∃ v w', Orchestrator.tool_loop sv cfg n r wq = (Ok v, w').
Proof.
  intros Hn Hf failed w2.
  pose proof (dispatch_call_raised sv cfg c rs w tool_func e w1 Hn Hf) as Hd.
  split; [exact Hd|]. split.
  - simpl. unfold Eff.bind. rewrite Hd. reflexivity.
  - intros n r wq. apply tool_loop_total.
Qed.

(** C9.  A call whose tool name has no entry in the registry is skipped
    with a warning and adds no part.  A turn runs through all its calls
    without an exception, and the parts it has produced are, in call order,
    one for each resolvable call: their number is the number of resolvable
    calls of the turn. *)
Theorem turn_results_match_resolvable_calls (cfg : Orchestrator.config) calls (w : World E) :
  (∃ ps w', Orchestrator.dispatch_calls sv cfg calls [] w
            = (Ok (ps, Orchestrator.Continue), w')
     ∧ map part_name ps = map name (filter (fun c => resolvable sv cfg c = true) calls)
     ∧ length ps = length (filter (fun c => resolvable sv cfg c = true) calls))
  ∧ (∀ c rs, resolvable sv cfg c = false →
       Orchestrator.dispatch_call sv cfg c rs w
       = (Ok (rs, Orchestrator.Continue),
          logged w WARNING ("Tool " ++ name c ++ " not found in map."))).
Proof.
  split.
  - destruct (dispatch_calls_spec sv cfg calls [] w) as (ps & w' & Hd & Hps).
    exists ps, w'. split; [exact Hd|]. split; [exact Hps|].
    rewrite <- (length_map part_name), Hps, length_map. reflexivity.
  - intros c rs Hr. apply dispatch_call_unresolved.
    unfold resolvable in Hr. apply bool_decide_eq_false in Hr.
    by apply eq_None_not_Some.
Qed.

End Claims.

(** C1.  [run_agent] never feeds tool results back: whatever the model and
    the tools do, the only message the chat session is ever handed is the
    initial prompt, and the loop works on the first reply in every round.
    On a reply that asks for today's events, the calendar is queried in each
    of the 15 rounds and the run ends in the failure status, the model having
    been sent one message. *)
Theorem run_agent_never_feeds_results_back :
  (∀ E (sv : Services E) cfg w,
     sent (Orchestrator.run_agent sv cfg w).2 = sent w
     ∨ sent (Orchestrator.run_agent sv cfg w).2
       = (sent w ++ [Prompt (Orchestrator.initial_prompt cfg)])%list)
  ∧ (let end_of_run := Orchestrator.run_agent Scenario.asks_events Scenario.cfg Scenario.w0 in
     end_of_run.1 = Ok (Some Orchestrator.failure_status)
     ∧ sent end_of_run.2 = [Prompt (Orchestrator.initial_prompt Scenario.cfg)]
     ∧ ext end_of_run.2 = 16%nat).
Proof.
  split.
  - intros E sv cfg w. apply run_agent_sent.
  - vm_compute. auto.
Qed.

(** ** The claims on concrete runs *)

(** Twilio rejects the message; the tool answers [False], which the
    function response refuses as it would refuse [True]. *)
Lemma send_sms_notification_never_raises_witness :
  terminal_call Scenario.sms_call = true
  ∧ ∃ b w1,
      Orchestrator.call_send_sms_notification Scenario.sms_rejected Scenario.cfg
        (args Scenario.sms_call) Scenario.w1 = (Ok (VBool b), w1)
      ∧ Orchestrator.dispatch_call Scenario.sms_rejected Scenario.cfg
          Scenario.sms_call [] Scenario.w1
        = (Ok ([Part "send_sms_notification"
                  (VDict [("error", VStr "1 validation error for FunctionResponse");
                          ("status", VStr "failed")])],
               Orchestrator.Continue),
           with_logs w1
             [executed Scenario.sms_rejected Scenario.sms_call (VBool b);
              failed Scenario.sms_call
                (types.ValidationError Scenario.sms_rejected (VBool b))])
      ∧ (b = true ↔ accepted_by_twilio Scenario.sms_rejected
                      (Orchestrator.twilio_tool Scenario.cfg)
                      (VStr "+15550100") (VStr "Study k8s today") Scenario.w1).
Proof.
  split; [vm_compute; reflexivity|].
  apply (proj2 (send_sms_notification_never_raises Scenario.sms_rejected Scenario.cfg
                  VNone VNone Scenario.w1) Scenario.sms_call []).
  vm_compute; reflexivity.
Defined.

(** The calendar holds one event, which is processed, and the tool answers
    [None]. *)
Lemma get_today_events_success_returns_None_witness :
  CalendarEventTool.process_events [Scenario.kubernetes_event] []
  = Ok [VDict [("title", VStr "Intro to Kubernetes");
               ("start_time_utc", VStr "2025-03-14T09:00:00Z");
               ("link", VStr "https://calendar.example.com/e/1")]]
  ∧ ∃ w', CalendarEventTool.get_today_events Scenario.asks_events
            (Orchestrator.calendar_tool Scenario.cfg) Scenario.w1 = (Ok VNone, w').
Proof.
  split; [vm_compute; reflexivity|].
  apply (get_today_events_success_returns_None Scenario.asks_events
           (Orchestrator.calendar_tool Scenario.cfg) Scenario.w1 Scenario.today 2%nat
           [VDict [("title", VStr "Intro to Kubernetes");
                   ("start_time_utc", VStr "2025-03-14T09:00:00Z");
                   ("link", VStr "https://calendar.example.com/e/1")]]);
    vm_compute; reflexivity.
Defined.

(** The recommendation endpoint cannot be reached. *)
Lemma client_search_error_returns_None_witness :
  ∃ w', Orchestrator.GitHubMcpClient.get_top_github_recommendations Scenario.asks_events
          (Orchestrator.github_tool_client Scenario.cfg)
          (VStr "Intro to Kubernetes") (VInt 3) Scenario.w1 = (Ok VNone, w').
Proof.
  apply (client_search_error_returns_None Scenario.asks_events
           (Orchestrator.github_tool_client Scenario.cfg)
           (VStr "Intro to Kubernetes") (VInt 3) Scenario.w1).
  left. exists Scenario.unreachable, 2%nat. split; vm_compute; reflexivity.
Defined.

(** The model asks for the SMS first and the events second, and Twilio
    accepts the message: the run ends in the failure status. *)
Lemma successful_sms_does_not_end_run_witness :
  first_reply Scenario.sms_first Scenario.cfg Scenario.w0
    (Response [Scenario.sms_call; Scenario.events_call] None) Scenario.w1
  ∧ terminal_call Scenario.sms_call = true
  ∧ accepted_by_twilio Scenario.sms_first (Orchestrator.twilio_tool Scenario.cfg)
      (VStr "+15550100") (VStr "Study k8s today") Scenario.w1
  ∧ ∃ w', Orchestrator.run_agent Scenario.sms_first Scenario.cfg Scenario.w0
          = (Ok (Some "Agent planning failed: Loop iteration limit exceeded."), w')
          ∧ Orchestrator.failure_status ≠ Orchestrator.success_status Scenario.cfg
          ∧ sent w' = sent Scenario.w1.
Proof.
  assert (first_reply Scenario.sms_first Scenario.cfg Scenario.w0
            (Response [Scenario.sms_call; Scenario.events_call] None) Scenario.w1) as Hfirst.
  { exists 0%nat, 1%nat. repeat split; vm_compute; reflexivity. }
  split; [exact Hfirst|]. split; [vm_compute; reflexivity|].
  split; [exists "SM1", 2%nat; vm_compute; reflexivity|].
  apply (proj1 (successful_sms_does_not_end_run Scenario.sms_first Scenario.cfg Scenario.w0
                  _ Scenario.w1 Scenario.sms_call Hfirst
                  ltac:(apply list_elem_of_In; simpl; auto)
                  ltac:(vm_compute; reflexivity))).
Defined.

(** In that run Twilio is asked to send the message in each of the 15
    rounds: of the 31 requests the outside has served at the end, one is
    the initial prompt, 15 are calendar queries and 15 are messages. *)
Example successful_sms_is_sent_15_times :
  let end_of_run := Orchestrator.run_agent Scenario.sms_first Scenario.cfg Scenario.w0 in
  end_of_run.1 = Ok (Some Orchestrator.failure_status)
  ∧ ext end_of_run.2 = 31%nat
  ∧ length (List.filter
              (fun l => String.eqb (log_msg l) "Executed send_sms_notification. Result: true...")
              (logs end_of_run.2)) = 15%nat.
Proof. vm_compute. auto. Qed.

Lemma run_agent_exhaustion_witness :
  first_reply Scenario.asks_events Scenario.cfg Scenario.w0
    (Response [Scenario.events_call] None) Scenario.w1
  ∧ ∃ w', Orchestrator.run_agent Scenario.asks_events Scenario.cfg Scenario.w0
          = (Ok (Some "Agent planning failed: Loop iteration limit exceeded."), w')
          ∧ last (logs w') = Some (Log ERROR "Agent exceeded the maximum loop iterations.")
          ∧ ∀ cfg', Orchestrator.failure_status ≠ Orchestrator.success_status cfg'.
Proof.
  assert (first_reply Scenario.asks_events Scenario.cfg Scenario.w0
            (Response [Scenario.events_call] None) Scenario.w1) as Hfirst.
  { exists 0%nat, 1%nat. repeat split; vm_compute; reflexivity. }
  split; [exact Hfirst|].
  apply (run_agent_exhaustion Scenario.asks_events Scenario.cfg Scenario.w0 _ Scenario.w1
           Hfirst ltac:(discriminate) ltac:(vm_compute; reflexivity)).
Defined.

(** The model leaves out [message_body]: the call raises a [TypeError],
    which becomes the payload of the call's part. *)
Lemma tool_exception_is_captured_witness :
  Orchestrator.dispatch_call Scenario.sms_without_body Scenario.cfg
    Scenario.bad_sms_call [] Scenario.w1
  = (Ok ([Part "send_sms_notification"
            (VDict [("error", VStr (exn_str Scenario.missing_body));
                    ("status", VStr "failed")])],
         Orchestrator.Continue),
     logged Scenario.w1 ERROR
       ("Error executing tool send_sms_notification: " ++ exn_str Scenario.missing_body)).
Proof.
  apply (proj1 (tool_exception_is_captured Scenario.sms_without_body Scenario.cfg
                  Scenario.bad_sms_call [] [] Scenario.w1
                  (Orchestrator.call_send_sms_notification Scenario.sms_without_body
                     Scenario.cfg)
                  Scenario.missing_body Scenario.w1
                  ltac:(vm_compute; reflexivity) ltac:(vm_compute; reflexivity))).
Defined.

(** An unknown tool, the SMS and the events: three calls, two of them
    resolvable, two parts. *)
Lemma turn_results_match_resolvable_calls_witness :
  ∃ ps w', Orchestrator.dispatch_calls Scenario.sms_rejected Scenario.cfg
             [Scenario.unknown_call; Scenario.sms_call; Scenario.events_call] [] Scenario.w1
           = (Ok (ps, Orchestrator.Continue), w')
           ∧ map part_name ps = ["send_sms_notification"; "get_today_events"]
           ∧ length ps = 2%nat.
Proof.
  destruct (proj1 (turn_results_match_resolvable_calls Scenario.sms_rejected Scenario.cfg
                     [Scenario.unknown_call; Scenario.sms_call; Scenario.events_call]
                     Scenario.w1))
    as (ps & w' & Hd & Hps & Hlen).
  exists ps, w'. split; [exact Hd|]. rewrite Hlen, Hps. split; vm_compute; reflexivity.
Defined.


(** C5, amended.  For every query and every bound [k >= 0],
    [get_top_recommendations] returns at most [k] records, sorted by
    decreasing score.  They are the first [k] places of the ranking of the
    analyzed search results: the ranking lists every position of
    [analyze(search(q))] once, a position of greater score first and, among
    equal scores, the position met first; the records returned are the
    records at those positions. *)
Theorem get_top_recommendations_ranked {E : Type} (sv : Services E) (self : GitHubMcpTool.t)
    (event_title : string) (max_results : Z) (w : World E) :
  (0 <= max_results)%Z →
  ∃ repos w1 out ranking,
    GitHubMcpTool.search_repositories sv self event_title
      (GitHubMcpTool._extract_keywords event_title) w = (Ok repos, w1)
    ∧ GitHubMcpTool.get_top_recommendations sv self event_title max_results w = (Ok out, w1)
    ∧ (Z.of_nat (length out) <= max_results)%Z
    ∧ StronglySorted (fun a b => (GitHubMcpTool.a_score b <= GitHubMcpTool.a_score a)%Q) out
    ∧ Permutation ranking (seq 0 (length repos))
    ∧ StronglySorted
        (ranks_before GitHubMcpTool.a_score (map GitHubMcpTool.analyze_repository repos))
        ranking
    ∧ picks (map GitHubMcpTool.analyze_repository repos)
        (take (Z.to_nat max_results) ranking) out.
Proof.
  intros Hk.
  destruct (get_top_recommendations_unfold sv self event_title max_results w)
    as (repos & w1 & Hsearch & Htop).
  set (analyzed := map GitHubMcpTool.analyze_repository repos) in *.
  destruct (ranking_of GitHubMcpTool.a_score analyzed)
    as (ranked & Hsnd & Hperm & Hlook & Hsorted).
  rewrite slice_to_nonneg, <- Hsnd, firstn_map in Htop by assumption.
  set (n := Z.to_nat max_results) in *.
  destruct (ranked_positions GitHubMcpTool.a_score analyzed (take n ranked))
    as (Hpicks & _ & Hdesc); [by apply Forall_take | by apply StronglySorted_take |].
  destruct (ranked_positions GitHubMcpTool.a_score analyzed ranked Hlook Hsorted)
    as (_ & Hranks & _).
  exists repos, w1, (map snd (take n ranked)), (map fst ranked).
  split; [exact Hsearch|]. split; [exact Htop|]. split.
  { rewrite length_map. pose proof (firstn_le_length n ranked). lia. }
  split; [exact Hdesc|]. split.
  { unfold analyzed in Hperm. by rewrite length_map in Hperm. }
  split; [exact Hranks|].
  rewrite firstn_map. exact Hpicks.
Qed.

(** C5, as stated, fails twice.  For the bound [-1] the slice drops the last
    of the three ranked records and two are returned.  For the bound [2] the
    records returned are [b] then [a], which the search met as [a] then [b]:
    the result is no subsequence of the analyzed search results. *)
Lemma get_top_recommendations_counterexample :
  (∃ out w', GitHubMcpTool.get_top_recommendations Scenario.github_answers
               Scenario.github_tool "kubernetes" (-1) Scenario.w0 = (Ok out, w')
             ∧ ¬ (Z.of_nat (length out) <= -1)%Z)
  ∧ (∃ out w', GitHubMcpTool.get_top_recommendations Scenario.github_answers
                 Scenario.github_tool "kubernetes" 2 Scenario.w0 = (Ok out, w')
               ∧ ¬ sublist out (map GitHubMcpTool.analyze_repository Scenario.three_repos)).
Proof.
  split.
  - eexists _, _. split; [vm_compute; reflexivity|]. simpl. lia.
  - eexists _, _. split; [vm_compute; reflexivity|].
    intros Hsub. apply (fmap_sublist GitHubMcpTool.a_name) in Hsub.
    revert Hsub. vm_compute. intros Hsub.
    inversion Hsub as [| |? ? ? H1]; subst.
    inversion H1 as [| ? ? ? H2 |? ? ? H2]; subst; inversion H2 as [| ? ? ? H3|? ? ? H3]; subst;
      inversion H3.
Qed.

Lemma get_top_recommendations_ranked_witness :
  (0 <= 2)%Z
  ∧ ∃ repos w1 out ranking,
      GitHubMcpTool.search_repositories Scenario.github_answers Scenario.github_tool
        "kubernetes" (GitHubMcpTool._extract_keywords "kubernetes") Scenario.w0
      = (Ok repos, w1)
      ∧ GitHubMcpTool.get_top_recommendations Scenario.github_answers Scenario.github_tool
          "kubernetes" 2 Scenario.w0 = (Ok out, w1)
      ∧ (Z.of_nat (length out) <= 2)%Z
      ∧ StronglySorted (fun a b => (GitHubMcpTool.a_score b <= GitHubMcpTool.a_score a)%Q) out
      ∧ Permutation ranking (seq 0 (length repos))
      ∧ StronglySorted
          (ranks_before GitHubMcpTool.a_score (map GitHubMcpTool.analyze_repository repos))
          ranking
      ∧ picks (map GitHubMcpTool.analyze_repository repos) (take (Z.to_nat 2) ranking) out.
Proof.
  split; [lia|].
  apply (get_top_recommendations_ranked Scenario.github_answers Scenario.github_tool
           "kubernetes" 2 Scenario.w0).
  lia.
Defined.

(** * Further properties of the code *)

(** ** calendar_tool.py *)

Lemma process_events_acc events acc :
  match CalendarEventTool.process_events events acc with
  | Ok out =>
      forallb complete events = true
      ∧ ∃ ds, out = (acc ++ ds)%list ∧ Forall2 processed_from events ds
  | Raise e => forallb complete events = false ∧ exn_cls e = KeyError
  end.
Proof.
  revert acc. induction events as [|ev events IH]; intros acc; simpl.
  - split; [reflexivity|]. exists []. rewrite app_nil_r. split; constructor.
  - unfold CalendarEventTool.process_event.
    destruct (complete ev) eqn:Hc; unfold complete in Hc;
      destruct (start ev) as [st|] eqn:Hst; try discriminate; try (split; reflexivity);
      destruct (summary ev) as [title|] eqn:Hsum; try discriminate;
      try (split; reflexivity).
    simpl. specialize (IH (acc ++ [VDict [("title", VStr title);
      ("start_time_utc", CalendarEventTool.opt_str
         (match dateTime st with Some d => Some d | None => date st end));
      ("link", VStr (default "N/A" (htmlLink ev)))]])%list).
    destruct (CalendarEventTool.process_events events _) as [out|e]; [|exact IH].
    destruct IH as (Hall & ds & -> & Hds). split; [assumption|].
    eexists (_ :: ds). rewrite <- app_assoc. split; [reflexivity|].
    constructor; [|assumption]. exists title, st. auto.
Qed.

(** X1.  The loop over the calendar items is all or nothing: when every
    item has ['start'] and ['summary'] it yields one dict per item, in
    order; as soon as one item lacks a key it raises a [KeyError] and yields
    nothing. *)
Theorem process_events_all_or_nothing (events : list calendar_event) :
  match CalendarEventTool.process_events events [] with
  | Ok out =>
      forallb complete events = true
      ∧ length out = length events ∧ Forall2 processed_from events out
  | Raise e => forallb complete events = false ∧ exn_cls e = KeyError
  end.
Proof.
  pose proof (process_events_acc events []) as H.
  destruct (CalendarEventTool.process_events events []) as [out|e]; [|exact H].
  destruct H as (Hall & ds & -> & Hds). simpl.
  split; [assumption|]. split; [|assumption].
  symmetry. eapply Forall2_length, Hds.
Qed.

Section CalendarExtras.
Context {E : Type} (sv : Services E) (self : CalendarEventTool.t).

(** X2.  One calendar item without ['summary'] or ['start'] spoils the whole
    answer: [get_today_events] logs the [KeyError] as a fetch error and
    returns the empty list, whatever the other items are. *)
Theorem get_today_events_incomplete_item (w : World E) er e' event :
  events_list_execute sv (today_query sv self w) (ext w) = (Ok er, e') →
  In event (default [] (items er)) →
  complete event = false →
  ∃ e w', CalendarEventTool.get_today_events sv self w = (Ok (VList []), w')
          ∧ exn_cls e = KeyError
          ∧ last (logs w') = Some (Log ERROR ("Error fetching calendar events: " ++ exn_str e)).
Proof.
  intros He Hin Hc.
  assert (forallb complete (default [] (items er)) = false) as Hall.
  { apply not_true_is_false. intros Hall. rewrite forallb_forall in Hall.
    rewrite (Hall _ Hin) in Hc. discriminate. }
  pose proof (process_events_acc (default [] (items er)) []) as Hp.
  destruct (CalendarEventTool.process_events (default [] (items er)) []) as [out|e] eqn:Hpe.
  { destruct Hp as (Hp & _). congruence. }
  destruct Hp as (_ & Hk).
  unfold CalendarEventTool.get_today_events, today_query, CalendarEventTool.replace,
    Eff.bind, Eff.try_except, Eff.call in *.
  cbn [fst snd ext]. rewrite He. cbn. rewrite Hpe.
  exists e. case_bool_decide; cbn; eexists; (split; [reflexivity|]);
    (split; [assumption|]); cbn; apply last_snoc.
Qed.

(** X3.  Each call of [get_today_events] sends the calendar exactly one
    request, for the tool's calendar and the current UTC day: the window
    starts at 00:00:00.000000 and ends at 23:59:59.999999 of the date the
    clock shows, repeated events are expanded and the order is by start
    time; the current instant lies inside the window. *)
Theorem get_today_events_requests_today (w : World (E * list events_query)) :
  let now := utcnow sv (ext w).1 in
  time_of_day_ok now →
  ∃ query,
    calendar_requests (CalendarEventTool.get_today_events (watched sv) self w).2
    = (calendar_requests w ++ [query])%list
    ∧ calendarId query = CalendarEventTool.calendar_id self
    ∧ datetime_fields (timeMin query) = [year now; month now; day now; 0; 0; 0; 0]%Z
    ∧ datetime_fields (timeMax query) = [year now; month now; day now; 23; 59; 59; 999999]%Z
    ∧ singleEvents query = true ∧ orderBy query = "startTime"
    ∧ datetime_le (timeMin query) now
    ∧ datetime_le now (timeMax query).
Proof.
  intros now (Hh & Hm & Hs & Hus).
  exists (EventsQuery (CalendarEventTool.calendar_id self)
            (CalendarEventTool.replace now 0 0 0 0)
            (CalendarEventTool.replace now 23 59 59 999999) true "startTime").
  split.
  { unfold calendar_requests, CalendarEventTool.get_today_events,
      Eff.bind, Eff.try_except, Eff.call.
    cbn [fst snd ext watched utcnow events_list_execute]. fold now.
    destruct (events_list_execute sv _ (ext w).1) as [[er|e] e']; cbn; [|reflexivity].
    destruct (CalendarEventTool.process_events _ _); case_bool_decide; reflexivity. }
  do 5 (split; [reflexivity|]).
  unfold datetime_le, datetime_fields. simpl.
  split; repeat (right; split; [reflexivity|]).
  - destruct (Z.eq_dec (hour now) 0) as [->|]; [right; split; [reflexivity|] | left; lia].
    destruct (Z.eq_dec (minute now) 0) as [->|]; [right; split; [reflexivity|] | left; lia].
    destruct (Z.eq_dec (second now) 0) as [->|]; [right; split; [reflexivity|] | left; lia].
    destruct (Z.eq_dec (microsecond now) 0) as [->|];
      [right; split; [reflexivity|exact I] | left; lia].
  - destruct (Z.eq_dec (hour now) 23) as [->|]; [right; split; [reflexivity|] | left; lia].
    destruct (Z.eq_dec (minute now) 59) as [->|]; [right; split; [reflexivity|] | left; lia].
    destruct (Z.eq_dec (second now) 59) as [->|]; [right; split; [reflexivity|] | left; lia].
    destruct (Z.eq_dec (microsecond now) 999999) as [->|];
      [right; split; [reflexivity|exact I] | left; lia].
Qed.

End CalendarExtras.

(** ** twilio_tool.py *)

Lemma twilio_init_ok {E : Type} (sid token number : option string) (w : World E) :
  forallb truthy [sid; token; number] = true →
  TwilioNotifierTool.init sid token number w
  = (Ok (TwilioNotifierTool.Tool (default "" number)),
     logged w INFO "TwilioNotifierTool initialized.").
Proof. intros H. unfold TwilioNotifierTool.init. rewrite H. reflexivity. Qed.

Lemma twilio_init_missing {E : Type} (sid token number : option string) (w : World E) :
  forallb truthy [sid; token; number] = false →
  TwilioNotifierTool.init sid token number w
  = (Raise (ValueError "Twilio credentials must be set."),
     logged w ERROR "FATAL: One or more Twilio credentials are missing.").
Proof. intros H. unfold TwilioNotifierTool.init. rewrite H. reflexivity. Qed.

Lemma truthy_Some o : truthy o = true → ∃ s, o = Some s ∧ s ≠ "".
Proof.
  destruct o as [s|]; [|discriminate]. simpl. intros H. exists s. split; [reflexivity|].
  intros ->. discriminate.
Qed.

(** X4.  The notifier can only be built when the account id, the token and
    the sender number are all set and non-empty; it then sends from that
    number.  Otherwise the constructor logs the fatal error and raises
    ["Twilio credentials must be set."]. *)
Theorem twilio_init_needs_credentials {E : Type} (sid token number : option string)
    (w : World E) :
  match TwilioNotifierTool.init sid token number w with
  | (Ok tool, w') =>
      (∃ s t n, sid = Some s ∧ token = Some t ∧ number = Some n
                ∧ s ≠ "" ∧ t ≠ "" ∧ n ≠ "" ∧ TwilioNotifierTool.from_number tool = n)
      ∧ w' = logged w INFO "TwilioNotifierTool initialized."
  | (Raise e, w') =>
      (truthy sid = false ∨ truthy token = false ∨ truthy number = false)
      ∧ exn_str e = "Twilio credentials must be set."
      ∧ w' = logged w ERROR "FATAL: One or more Twilio credentials are missing."
  end.
Proof.
  destruct (forallb truthy [sid; token; number]) eqn:Hall.
  - rewrite (twilio_init_ok _ _ _ w Hall). split; [|reflexivity].
    simpl in Hall. rewrite andb_true_r in Hall.
    apply andb_prop in Hall as [Hs [Ht Hn]%andb_prop].
    destruct (truthy_Some _ Hs) as (s & -> & Hs').
    destruct (truthy_Some _ Ht) as (t & -> & Ht').
    destruct (truthy_Some _ Hn) as (n & -> & Hn').
    exists s, t, n. auto 10.
  - rewrite (twilio_init_missing _ _ _ w Hall). split; [|split; reflexivity].
    simpl in Hall. rewrite andb_true_r in Hall.
    apply andb_false_iff in Hall as [H|H]; [auto|].
    apply andb_false_iff in H as [H|H]; auto.
Qed.

(** X5.  Every attempt to send leaves exactly one log record, an INFO
    record when Twilio accepted the message and an ERROR record when it did
    not; the search counter and the chat session are not touched. *)
Theorem send_sms_notification_logs_once {E : Type} (sv : Services E)
    (self : TwilioNotifierTool.t) (recipient body : value) (w : World E) :
  ∃ b r w', TwilioNotifierTool.send_sms_notification sv self recipient body w = (Ok b, w')
            ∧ logs w' = (logs w ++ [r])%list
            ∧ log_level r = (if b then INFO else ERROR)
            ∧ sent w' = sent w
            ∧ GITHUB_SEARCHES w' = GITHUB_SEARCHES w.
Proof.
  unfold TwilioNotifierTool.send_sms_notification, Eff.try_except, Eff.bind, Eff.call.
  destruct (messages_create sv recipient _ body (ext w)) as [[sid|e] e'] eqn:Hc; simpl.
  - eexists true, _, _. repeat split.
  - eexists false, _, _. repeat split.
Qed.

(** ** githubmcptool.py *)

(** X6.  The search tool is built whatever the environment holds and never
    raises.  The token comes from [GITHUB_TOKEN] alone: the constructor's
    argument has no effect.  With a non-empty token the requests carry an
    [Authorization] header after the [Accept] header; without one they carry
    the [Accept] header only. *)
Theorem github_init_token {E : Type} (github_token GITHUB_TOKEN : option string)
    (w : World E) :
  ∃ tool w',
    GitHubMcpTool.init github_token GITHUB_TOKEN w = (Ok tool, w')
    ∧ GitHubMcpTool.init None GITHUB_TOKEN w = (Ok tool, w')
    ∧ GitHubMcpTool.github_token tool = GITHUB_TOKEN
    ∧ GitHubMcpTool.base_url tool = "https://api.github.com"
    ∧ GitHubMcpTool.headers tool
      = match GITHUB_TOKEN with
        | Some tk =>
            if String.eqb tk "" then [("Accept", "application/vnd.github.v3+json")]
            else [("Accept", "application/vnd.github.v3+json");
                  ("Authorization", "token " ++ tk)]
        | None => [("Accept", "application/vnd.github.v3+json")]
        end.
Proof.
  unfold GitHubMcpTool.init.
  destruct GITHUB_TOKEN as [tk|]; simpl; [|eexists _, _; repeat split].
  destruct (String.eqb tk ""); simpl; eexists _, _; repeat split.
Qed.

Section SearchExtras.
Context {E : Type} (sv : Services E) (self : GitHubMcpTool.t).

(** X7.  [search_repositories] never raises.  It returns the items of a
    reply with status 200 whose body can be read (none when the body has no
    ['items']) and the empty list in every other case; the [keywords] it is
    given have no effect on the request or on the result. *)
Theorem search_repositories_outcome (query : string) (keywords : list string) (w : World E) :
  ∃ w', GitHubMcpTool.search_repositories sv self query keywords w
        = (Ok match github_get sv (search_request_of self query) (ext w) with
              | (Ok resp, _) =>
                  if (search_status_code resp =? 200)%Z then
                    match search_json resp with
                    | Ok body => default [] (search_items body)
                    | Raise _ => []
                    end
                  else []
              | (Raise _, _) => []
              end, w')
        ∧ GitHubMcpTool.search_repositories sv self query [] w
          = GitHubMcpTool.search_repositories sv self query keywords w
        ∧ sent w' = sent w.
Proof.
  unfold GitHubMcpTool.search_repositories, search_request_of,
    Eff.bind, Eff.try_except, Eff.call; simpl.
  destruct (github_get sv _ (ext w)) as [[resp|e] e']; simpl; [|eauto].
  destruct (search_status_code resp =? 200)%Z; simpl; [|eauto].
  destruct (search_json resp); simpl; eauto.
Qed.

(** X8.  The counter [GITHUB_SEARCHES] gains one [success] for a reply with
    status 200 and one [error] for any other reply and for a request that
    raises.  A reply with status 200 whose body cannot be read is counted
    twice, once under each label. *)
Theorem search_repositories_counts (query : string) (keywords : list string) (w : World E) :
  let outcome := (github_get sv (search_request_of self query) (ext w)).1 in
  let w' := (GitHubMcpTool.search_repositories sv self query keywords w).2 in
  ∀ label, GITHUB_SEARCHES w' label = (GITHUB_SEARCHES w label + counted outcome label)%nat.
Proof.
  unfold GitHubMcpTool.search_repositories, search_request_of,
    Eff.bind, Eff.try_except, Eff.call; simpl.
  destruct (github_get sv _ (ext w)) as [[resp|e] e']; simpl.
  - destruct (search_status_code resp =? 200)%Z; simpl.
    + destruct (search_json resp); intros []; simpl; lia.
    + intros []; simpl; lia.
  - intros []; simpl; lia.
Qed.

End SearchExtras.

(** The score in closed form, for the properties below. *)
Lemma score_of_closed_form (r : repo) :
  (GitHubMcpTool.score_of r
   == ScoreSpec.score (default 0%Z (stargazers_count r)) (default 0%Z (forks_count r))
        (default "" (description r)) (default false (has_wiki r)))%Q.
Proof.
  unfold GitHubMcpTool.score_of, ScoreSpec.score, ScoreSpec.keyword_hits, GitHubMcpTool.div100.
  rewrite README_upper_lower.
  destruct (ScoreSpec.contains_ci "README" (default "" (description r)));
    destruct (default false (has_wiki r));
    unfold ScoreSpec.flag; rewrite add_keywords_count; ring.
Qed.

Lemma div100_le (x y : Z) : (x <= y)%Z → (inject_Z x / 100 <= inject_Z y / 100)%Q.
Proof.
  intros Hxy. unfold Qdiv. apply Qmult_le_compat_r; [by rewrite <- Zle_Qle|].
  discriminate.
Qed.

Lemma Qplus_nonneg (a b : Q) : (0 <= a → 0 <= b → 0 <= a + b)%Q.
Proof. intros Ha Hb. exact (Qplus_le_compat 0 a 0 b Ha Hb). Qed.

Lemma Qmult5_le (a b : Q) : (a <= b → 5 * a <= 5 * b)%Q.
Proof. intros Hab. apply Qmult_le_l; [reflexivity|assumption]. Qed.

Lemma keyword_hits_le_7 descr : (ScoreSpec.keyword_hits descr ≤ 7)%nat.
Proof.
  unfold ScoreSpec.keyword_hits.
  etransitivity; [apply length_filter|]. reflexivity.
Qed.

Lemma flag_bounds b : (0 <= ScoreSpec.flag b <= 1)%Q.
Proof. destruct b; simpl; split; discriminate. Qed.

(** X9.  A repository whose star and fork counts are not negative scores
    between 0 and 115, and 115 is reached: 50 for the stars, 20 for the
    forks, 5 for each of the seven keywords, 5 for the wiki and 5 for the
    README. *)
Theorem score_of_bounds (r : repo) :
  (0 <= default 0 (stargazers_count r))%Z →
  (0 <= default 0 (forks_count r))%Z →
  (0 <= GitHubMcpTool.score_of r <= 115)%Q
  ∧ (GitHubMcpTool.score_of best_repo == 115)%Q.
Proof.
  intros Hs Hf. split; [|vm_compute; reflexivity].
  rewrite score_of_closed_form. unfold ScoreSpec.score.
  set (stars := default 0%Z (stargazers_count r)) in *.
  set (forks := default 0%Z (forks_count r)) in *.
  set (descr := default "" (description r)).
  pose proof (keyword_hits_le_7 descr) as Hk.
  pose proof (flag_bounds (default false (has_wiki r))) as [Hw0 Hw1].
  pose proof (flag_bounds (ScoreSpec.contains_ci "README" descr)) as [Hr0 Hr1].
  assert (0 <= Qmin (inject_Z stars / 100) 50)%Q as Hs0.
  { apply Q.min_glb; [|discriminate].
    apply Qle_trans with (inject_Z 0 / 100)%Q; [discriminate|by apply div100_le]. }
  assert (0 <= Qmin (inject_Z forks / 100) 20)%Q as Hf0.
  { apply Q.min_glb; [|discriminate].
    apply Qle_trans with (inject_Z 0 / 100)%Q; [discriminate|by apply div100_le]. }
  pose proof (Q.le_min_r (inject_Z stars / 100) 50) as Hs1.
  pose proof (Q.le_min_r (inject_Z forks / 100) 20) as Hf1.
  assert (0 <= inject_Z (Z.of_nat (ScoreSpec.keyword_hits descr)) <= 7)%Q as [Hk0 Hk1].
  { split.
    - change 0%Q with (inject_Z 0). rewrite <- Zle_Qle. lia.
    - change 7%Q with (inject_Z 7). rewrite <- Zle_Qle. lia. }
  split.
  - repeat apply Qplus_nonneg; try assumption;
      apply Qmult_le_0_compat; try assumption; discriminate.
  - apply Qle_trans with (50 + 20 + 5 * 7 + 5 * 1 + 5 * 1)%Q; [|discriminate].
    repeat apply Qplus_le_compat; try assumption; by apply Qmult5_le.
Qed.

(** X10.  More stars or more forks never lower the score, and beyond 5000
    stars and 2000 forks they no longer raise it. *)
Theorem score_of_monotone (r : repo) (stars stars' forks forks' : Z) :
  (stars <= stars')%Z →
  (forks <= forks')%Z →
  (GitHubMcpTool.score_of (with_counts r stars forks)
   <= GitHubMcpTool.score_of (with_counts r stars' forks'))%Q
  ∧ ((5000 <= stars)%Z → (2000 <= forks)%Z →
     (GitHubMcpTool.score_of (with_counts r stars forks)
      == GitHubMcpTool.score_of (with_counts r 5000 2000))%Q).
Proof.
  intros Hs Hf. rewrite !score_of_closed_form. unfold with_counts, ScoreSpec.score. simpl.
  split.
  - repeat apply Qplus_le_compat; try apply Qle_refl;
      apply Q.min_le_compat_r; by apply div100_le.
  - intros Hs5 Hf2.
    rewrite (Q.min_r (inject_Z stars / 100) 50), (Q.min_r (inject_Z forks / 100) 20).
    + rewrite (Q.min_r (inject_Z 5000 / 100) 50), (Q.min_r (inject_Z 2000 / 100) 20);
        [reflexivity | discriminate | discriminate].
    + apply (Qle_trans _ (inject_Z 2000 / 100)); [discriminate|by apply div100_le].
    + apply (Qle_trans _ (inject_Z 5000 / 100)); [discriminate|by apply div100_le].
Qed.

Lemma lower_upper s : PyStr.lower (PyStr.upper s) = PyStr.lower s.
Proof.
  unfold PyStr.lower, PyStr.upper. rewrite map_chars_compose.
  induction s as [|c s IH]; simpl; [reflexivity|]. rewrite IH. f_equal.
  destruct c as [[] [] [] [] [] [] [] []]; reflexivity.
Qed.

Lemma lower_lower s : PyStr.lower (PyStr.lower s) = PyStr.lower s.
Proof.
  unfold PyStr.lower. rewrite map_chars_compose.
  induction s as [|c s IH]; simpl; [reflexivity|]. rewrite IH. f_equal.
  destruct c as [[] [] [] [] [] [] [] []]; reflexivity.
Qed.

Lemma extract_keywords_elem text kw :
  kw ∈ GitHubMcpTool._extract_keywords text
  ↔ kw ∈ GitHubMcpTool.tech_keywords ∧ PyStr.contains kw (PyStr.lower text) = true.
Proof.
  unfold GitHubMcpTool._extract_keywords. rewrite list_elem_of_filter. tauto.
Qed.

(** X11.  For a title of ASCII characters, the keywords extracted are those
    of the fixed list that occur in the lowercased title, in the order of
    the list and each at most once; the letter case of the title makes no
    difference. *)
Theorem extract_keywords_spec (text : string) :
  PyStr.isascii text = true →
  sublist (GitHubMcpTool._extract_keywords text) GitHubMcpTool.tech_keywords
  ∧ NoDup (GitHubMcpTool._extract_keywords text)
  ∧ (∀ kw, kw ∈ GitHubMcpTool._extract_keywords text
           ↔ kw ∈ GitHubMcpTool.tech_keywords
             ∧ PyStr.contains kw (PyStr.lower text) = true)
  ∧ GitHubMcpTool._extract_keywords (PyStr.upper text) = GitHubMcpTool._extract_keywords text
  ∧ GitHubMcpTool._extract_keywords (PyStr.lower text) = GitHubMcpTool._extract_keywords text.
Proof.
  intros _.
  split; [apply sublist_filter|]. split.
  { apply NoDup_filter. unfold GitHubMcpTool.tech_keywords.
    apply (bool_decide_unpack _). vm_compute. exact I. }
  split; [apply extract_keywords_elem|].
  unfold GitHubMcpTool._extract_keywords. by rewrite lower_upper, lower_lower.
Qed.

Lemma prefix_app_l p q s :
  String.prefix (p ++ q) s = true → String.prefix p s = true.
Proof.
  revert s. induction p as [|a p IH]; intros [|b s]; simpl; try reflexivity; try discriminate.
  destruct (ascii_dec a b); [apply IH|discriminate].
Qed.

Lemma contains_app_l p q s :
  PyStr.contains (p ++ q) s = true → PyStr.contains p s = true.
Proof.
  induction s as [|c s IH].
  - apply (prefix_app_l p q EmptyString).
  - change (PyStr.contains (p ++ q) (String c s))
      with (String.prefix (p ++ q) (String c s) || PyStr.contains (p ++ q) s).
    change (PyStr.contains p (String c s))
      with (String.prefix p (String c s) || PyStr.contains p s).
    intros [H|H]%orb_prop.
    + by rewrite (prefix_app_l _ _ _ H).
    + rewrite (IH H). apply orb_true_r.
Qed.

(** X12.  Matching is by substring, so a title that yields [javascript]
    always yields [java] as well. *)
Theorem extract_keywords_javascript_java (text : string) :
  "javascript" ∈ GitHubMcpTool._extract_keywords text →
  "java" ∈ GitHubMcpTool._extract_keywords text.
Proof.
  rewrite !extract_keywords_elem. intros [_ Hjs]. split.
  - unfold GitHubMcpTool.tech_keywords. set_solver.
  - apply (contains_app_l "java" "script"). exact Hjs.
Qed.

Section RecommendationExtras.
Context {E : Type} (sv : Services E) (self : GitHubMcpTool.t).

(** X13.  [get_top_recommendations] never raises and returns as many
    records as the slice [[:max_results]] keeps of the search results: the
    smaller of the two numbers for a bound that is not negative, all but the
    last [-max_results] for a negative one.  When the bound is not smaller
    than the number of search results, every one of them is returned. *)
Theorem get_top_recommendations_length (event_title : string) (max_results : Z)
    (w : World E) :
  ∃ repos w1 out,
    GitHubMcpTool.search_repositories sv self event_title
      (GitHubMcpTool._extract_keywords event_title) w = (Ok repos, w1)
    ∧ GitHubMcpTool.get_top_recommendations sv self event_title max_results w = (Ok out, w1)
    ∧ length out = slice_length (length repos) max_results
    ∧ ((Z.of_nat (length repos) <= max_results)%Z →
       Permutation out (map GitHubMcpTool.analyze_repository repos)).
Proof.
  destruct (get_top_recommendations_unfold sv self event_title max_results w)
    as (repos & w1 & Hsearch & Htop).
  eexists repos, w1, _. split; [exact Hsearch|]. split; [exact Htop|].
  set (ranked := GitHubMcpTool.sorted_desc GitHubMcpTool.a_score
                   (map GitHubMcpTool.analyze_repository repos)).
  assert (length ranked = length repos) as Hlen.
  { unfold ranked. by rewrite sorted_desc_length, length_map. }
  unfold PyStr.slice_to, slice_length. split.
  - destruct (Z.ltb_spec max_results 0) as [Hk|Hk]; rewrite length_take, Hlen;
      [lia|reflexivity].
  - intros Hall. destruct (Z.ltb_spec max_results 0) as [Hk|Hk]; [lia|].
    rewrite take_ge by lia. apply sorted_desc_perm.
Qed.

(** X14.  The route [/recommendation] answers in one of two ways.  A bound
    outside 1..10 is refused before anything is searched.  A bound inside
    gets a result list of at most that many records: the route never raises
    and never answers with the [HTTPException] it has a handler for, because
    the search below it swallows every error. *)
Theorem get_top_recommendation_endpoint_answers (event_title : string) (max_results : Z)
    (w : World E) :
  if ((0 <? max_results) && (max_results <=? 10))%Z%bool then
    ∃ results w',
      GitHubMcpTool.get_top_recommendation_endpoint sv self event_title max_results w
      = (Ok (GitHubMcpTool.Results results), w')
      ∧ (Z.of_nat (length results) <= max_results <= 10)%Z
  else
    GitHubMcpTool.get_top_recommendation_endpoint sv self event_title max_results w
    = (Ok GitHubMcpTool.ValidationError, w).
Proof.
  unfold GitHubMcpTool.get_top_recommendation_endpoint.
  destruct (Z.ltb_spec 0 max_results) as [Hlo|Hlo]; simpl; [|reflexivity].
  destruct (Z.leb_spec max_results 10) as [Hhi|Hhi]; simpl; [|reflexivity].
  unfold Eff.try_except, Eff.bind.
  destruct (get_top_recommendations_unfold sv self event_title max_results w)
    as (repos & w1 & _ & ->).
  simpl. eexists _, _. split; [reflexivity|].
  rewrite slice_to_nonneg by lia.
  pose proof (firstn_le_length (Z.to_nat max_results)
                (GitHubMcpTool.sorted_desc GitHubMcpTool.a_score
                   (map GitHubMcpTool.analyze_repository repos))).
  lia.
Qed.

End RecommendationExtras.

(** ** orchestrator.py *)

Section OrchestratorExtras.
Context {E : Type} (sv : Services E) (cfg : Orchestrator.config).

(** X15.  What the orchestrator's client returns, by cases on the request:
    the body of any reply whose status is not in 400..599, [None] when the
    request, the status check or the reading of the body raises a
    [RequestException]; an exception of another kind is not caught and
    leaves the function. *)
Theorem client_outcome (self : Orchestrator.GitHubMcpClient.t)
    (event_title max_results : value) (w : World E) :
  (Orchestrator.GitHubMcpClient.get_top_github_recommendations sv self
     event_title max_results w).1
  = match mcp_get sv (Orchestrator.GitHubMcpClient.url self) event_title max_results (ext w) with
    | (Ok resp, _) =>
        if ((400 <=? mcp_status_code resp) && (mcp_status_code resp <? 600))%Z%bool
        then Ok VNone
        else match mcp_json resp with
             | Ok body => Ok body
             | Raise e => if is_RequestException e then Ok VNone else Raise e
             end
    | (Raise e, _) => if is_RequestException e then Ok VNone else Raise e
    end.
Proof.
  unfold Orchestrator.GitHubMcpClient.get_top_github_recommendations,
    Orchestrator.GitHubMcpClient.raise_for_status, Eff.bind, Eff.try_except, Eff.call,
    Eff.logger.
  cbn [fst snd ext].
  destruct (mcp_get sv _ event_title max_results (ext w)) as [[resp|e] e']; cbn.
  - destruct ((400 <=? mcp_status_code resp)%Z && (mcp_status_code resp <? 600)%Z); cbn;
      [reflexivity|].
    destruct (mcp_json resp) as [body|e]; cbn; [reflexivity|].
    destruct (is_RequestException e); reflexivity.
  - destruct (is_RequestException e); reflexivity.
Qed.

(** X16.  When the model's first reply holds no tool call, [run_agent]
    returns the text of the reply ([None] when it has none) after logging
    it; no tool is invoked and the outside is left as the model's reply left
    it. *)
Theorem run_agent_text (w : World E) r w1 :
  first_reply sv cfg w r w1 →
  function_calls r = [] →
  Orchestrator.run_agent sv cfg w
  = (Ok (text r),
     logged w1 INFO ("Agent finished planning. Final response:
" ++ Orchestrator.fmt (text r))).
Proof.
  intros Hfirst Hc. rewrite (run_agent_first_reply sv cfg w r w1 Hfirst).
  change 15%nat with (S 14). cbn [Orchestrator.tool_loop]. unfold Eff.bind.
  rewrite (turn_text sv cfg r w1 Hc). reflexivity.
Qed.

(** X17.  The value [run_agent] ends with is decided by the session and the
    model's first reply alone: an exception of [chats.create] or of the
    first [send_message] leaves [run_agent] uncaught; a reply without tool
    calls gives its text, and every reply with tool calls gives the failure
    status, whatever the tools do. *)
Theorem run_agent_outcome (w : World E) :
  (Orchestrator.run_agent sv cfg w).1
  = match chats_create sv Orchestrator.GEMINI_MODEL Orchestrator.SYSTEM_PROMPT
            Orchestrator.tools_list (ext w) with
    | (Raise e, _) => Raise e
    | (Ok _, e1) =>
        match send_message sv (Prompt (Orchestrator.initial_prompt cfg)) e1 with
        | (Raise e, _) => Raise e
        | (Ok r, _) =>
            Ok match function_calls r with
               | [] => text r
               | _ :: _ => Some Orchestrator.failure_status
               end
        end
    end.
Proof.
  destruct (chats_create sv _ _ _ (ext w)) as [[[]|e] e1] eqn:Hc.
  2: { unfold Orchestrator.run_agent, Eff.bind, Eff.call. rewrite Hc. reflexivity. }
  destruct (send_message sv _ e1) as [[r|e] e2] eqn:Hs.
  2: { unfold Orchestrator.run_agent, Orchestrator.session_send_message,
         Eff.bind, Eff.call, Eff.record_sent.
       rewrite Hc. cbn [ext logs sent GITHUB_SEARCHES]. rewrite Hs. reflexivity. }
  set (w1 := MkWorld e2 (logs w) (GITHUB_SEARCHES w)
               (sent w ++ [Prompt (Orchestrator.initial_prompt cfg)])).
  rewrite (run_agent_first_reply sv cfg w r w1) by (exists e1, e2; auto).
  destruct (function_calls r) as [|c calls] eqn:Hcalls.
  - destruct (tool_loop_text sv cfg 14 r w1 Hcalls) as (w' & ->). reflexivity.
  - destruct (tool_loop_exhausted sv cfg 15 r w1) as (w' & -> & _);
      [congruence|reflexivity].
Qed.

Lemma dispatch_calls_unknown calls rs (w : World E) :
  forallb (fun c => negb (resolvable sv cfg c)) calls = true →
  Orchestrator.dispatch_calls sv cfg calls rs w
  = (Ok (rs, Orchestrator.Continue), with_logs w (not_found_warnings calls)).
Proof.
  revert w. induction calls as [|c calls IH]; intros w; simpl.
  - intros _. unfold Eff.ret, with_logs. rewrite app_nil_r. by destruct w.
  - intros [Hc Hcalls]%andb_prop. unfold Eff.bind.
    rewrite dispatch_call_unresolved.
    + rewrite (IH _ Hcalls). unfold with_logs, logged. simpl.
      by rewrite <- app_assoc.
    + apply negb_true_iff, bool_decide_eq_false in Hc. by apply eq_None_not_Some.
Qed.

(** X18.  A reply that names unknown tools only burns the whole budget
    without touching the outside: each of the rounds logs one warning per
    call, then the error is logged and the failure status returned. *)
Theorem tool_loop_unknown_tools (n : nat) r (w : World E) :
  function_calls r ≠ [] →
  forallb (fun c => negb (resolvable sv cfg c)) (function_calls r) = true →
  Orchestrator.tool_loop sv cfg n r w
  = (Ok (Some Orchestrator.failure_status),
     with_logs w (concat (replicate n (not_found_warnings (function_calls r)))
                  ++ [Log ERROR "Agent exceeded the maximum loop iterations."])).
Proof.
  intros Hne Hun. revert w. induction n as [|n IH]; intros w.
  - reflexivity.
  - cbn [Orchestrator.tool_loop]. unfold Eff.bind, Orchestrator.turn.
    destruct (function_calls r) as [|c calls] eqn:Hc; [congruence|].
    rewrite <- Hc in *. unfold Eff.bind.
    rewrite (dispatch_calls_unknown _ _ _ Hun). cbn [Eff.ret].
    rewrite IH. unfold with_logs. simpl. by rewrite <- !app_assoc.
Qed.

(** X20.  Whatever the calendar holds, the part the orchestrator builds for
    a call of [get_today_events] never carries an event.  Its payload is
    [None] when the tool returned [None]; the empty list the tool returns
    on a failure is refused by the function response, so the payload is
    then the failure dict of that [ValidationError]; a call that came with
    arguments gives the failure dict of a [TypeError].  The turn goes on
    after it. *)
Theorem dispatch_get_today_events c rs (w : World E) :
  name c = "get_today_events" →
  ∃ payload w',
    Orchestrator.dispatch_call sv cfg c rs w
    = (Ok ((rs ++ [Part "get_today_events" payload])%list, Orchestrator.Continue), w')
    ∧ (payload = VNone
       ∨ payload = Orchestrator.error_payload (types.ValidationError sv (VList []))
       ∨ ∃ e, payload = Orchestrator.error_payload e ∧ exn_cls e = TypeError).
Proof.
  intros Hn.
  assert (Orchestrator.TOOL_EXECUTOR_MAP sv cfg !! name c
          = Some (Orchestrator.call_get_today_events sv cfg)) as Hlook.
  { rewrite TOOL_EXECUTOR_MAP_lookup, Hn. reflexivity. }
  destruct (accepts [] [] (args c)) eqn:Ha.
  - destruct (get_today_events_never_raises sv (Orchestrator.calendar_tool cfg) w)
      as (v & w1 & Hv & Hcases).
    assert (Orchestrator.call_get_today_events sv cfg (args c) w = (Ok v, w1)) as Hcall.
    { unfold Orchestrator.call_get_today_events, Eff.bind.
      rewrite bind_kwargs_accepts by assumption. exact Hv. }
    destruct Hcases as [-> | ->].
    + destruct (dispatch_call_returned sv cfg c rs w _ VNone w1 Hlook Hcall eq_refl)
        as (w2 & Hd & _).
      rewrite Hn in Hd. simpl in Hd. exists VNone, w2. auto.
    + pose proof (dispatch_call_refused sv cfg c rs w _ (VList []) w1 Hlook Hcall eq_refl)
        as Hd.
      rewrite Hn in Hd at 1. eexists _, _. split; [exact Hd|]. auto.
  - destruct (bind_kwargs_rejects "CalendarEventTool.get_today_events" [] [] (args c) w Ha)
      as (e & He & Hcls).
    eexists _, _. split.
    + rewrite (dispatch_call_raised sv cfg c rs w _ e w Hlook).
      * rewrite Hn. reflexivity.
      * unfold Orchestrator.call_get_today_events, Eff.bind. rewrite He. reflexivity.
    + right. right. eauto.
Qed.

End OrchestratorExtras.

(** ** Construction and start-up *)

Section StartupExtras.
Context {E : Type} (connect : string → list string → E → result unit * E).

(** the process state once [connect] has left the outside in [e'] *)
Local Abbreviation connected w e' := (MkWorld e' (logs w) (GITHUB_SEARCHES w) (sent w)).

Lemma calendar_init_no_id file env_id arg (w : World E) :
  truthy (py_or arg env_id) = false →
  CalendarEventTool.init connect file env_id arg w
  = (Raise (ValueError "Calendar ID must be provided or set in env."),
     logged w ERROR "FATAL: LEARNING_CALENDAR_ID is not set.").
Proof. intros H. unfold CalendarEventTool.init. rewrite H. reflexivity. Qed.

Lemma calendar_init_connected file env_id arg (w : World E) e' :
  truthy (py_or arg env_id) = true →
  connect file CalendarEventTool.SCOPES (ext w) = (Ok tt, e') →
  CalendarEventTool.init connect file env_id arg w
  = (Ok (CalendarEventTool.Tool (default "" (py_or arg env_id))),
     logged (connected w e') INFO
       ("CalendarEventTool initialized for Calendar ID: " ++ default "" (py_or arg env_id))).
Proof.
  intros H Hc. unfold CalendarEventTool.init, Eff.try_except, Eff.bind, Eff.call.
  rewrite H. cbn [negb]. rewrite Hc. reflexivity.
Qed.

Lemma calendar_init_refused file env_id arg (w : World E) e e' :
  truthy (py_or arg env_id) = true →
  connect file CalendarEventTool.SCOPES (ext w) = (Raise e, e') →
  CalendarEventTool.init connect file env_id arg w
  = (Raise e,
     logged (connected w e') ERROR
       ("Failed to initialize Google Calendar Service: " ++ exn_str e)).
Proof.
  intros H Hc. unfold CalendarEventTool.init, Eff.try_except, Eff.bind, Eff.call.
  rewrite H. cbn [negb]. rewrite Hc. reflexivity.
Qed.

(** X21.  The calendar tool takes its calendar id from the argument when
    that is non-empty and from [LEARNING_CALENDAR_ID] otherwise.  Without
    an id it raises before any credential is read; with one it reads the
    credentials, and a failure there is logged and raised again unchanged. *)
Theorem calendar_init_outcome (file : string) (LEARNING_CALENDAR_ID calendar_id : option string)
    (w : World E) :
  match CalendarEventTool.init connect file LEARNING_CALENDAR_ID calendar_id w with
  | (Ok tool, w') =>
      ∃ id e', py_or calendar_id LEARNING_CALENDAR_ID = Some id ∧ id ≠ ""
               ∧ CalendarEventTool.calendar_id tool = id
               ∧ connect file CalendarEventTool.SCOPES (ext w) = (Ok tt, e')
               ∧ ext w' = e'
  | (Raise e, w') =>
      (truthy (py_or calendar_id LEARNING_CALENDAR_ID) = false
       ∧ exn_str e = "Calendar ID must be provided or set in env."
       ∧ w' = logged w ERROR "FATAL: LEARNING_CALENDAR_ID is not set.")
      ∨ (∃ e', connect file CalendarEventTool.SCOPES (ext w) = (Raise e, e')
               ∧ ext w' = e'
               ∧ last (logs w')
                 = Some (Log ERROR ("Failed to initialize Google Calendar Service: "
                                    ++ exn_str e)))
  end.
Proof.
  destruct (truthy (py_or calendar_id LEARNING_CALENDAR_ID)) eqn:Ht.
  - destruct (connect file CalendarEventTool.SCOPES (ext w)) as [[[]|e] e'] eqn:Hc.
    + rewrite (calendar_init_connected _ _ _ w e' Ht Hc).
      destruct (truthy_Some _ Ht) as (id & Hid & Hne).
      exists id, e'. rewrite Hid. auto.
    + rewrite (calendar_init_refused _ _ _ w e e' Ht Hc).
      right. exists e'. repeat split. apply last_snoc.
  - rewrite (calendar_init_no_id _ _ _ w Ht). left. auto.
Qed.

Section WithEnviron.
Context (env : Orchestrator.environ).

Local Abbreviation calendar_ready :=
  (Log INFO ("CalendarEventTool initialized for Calendar ID: "
             ++ default "" (Orchestrator.env_LEARNING_CALENDAR_ID env))).
Local Abbreviation twilio_credentials :=
  [Orchestrator.env_TWILIO_ACCOUNT_SID env; Orchestrator.env_TWILIO_AUTH_TOKEN env;
   Orchestrator.env_TWILIO_PHONE_NUMBER env].
Local Abbreviation critical msg := (Log CRITICAL ("Tool Initialization Failed: " ++ msg)).

Lemma initialize_ok (w : World E) e' :
  environ_complete env = true →
  connect (service_account_file env) CalendarEventTool.SCOPES (ext w) = (Ok tt, e') →
  Orchestrator.initialize connect env w
  = (Ok (Some (config_of env)),
     with_logs (connected w e') [calendar_ready; Log INFO "TwilioNotifierTool initialized."]).
Proof.
  intros [Hcal Htw]%andb_prop Hc.
  unfold Orchestrator.initialize, Eff.try_except, Eff.bind.
  fold (service_account_file env).
  rewrite (calendar_init_connected (service_account_file env)
             (Orchestrator.env_LEARNING_CALENDAR_ID env) None w e' Hcal Hc).
  rewrite twilio_init_ok by exact Htw.
  unfold with_logs, logged. simpl. by rewrite <- app_assoc.
Qed.

Lemma initialize_no_calendar_id (w : World E) :
  truthy (Orchestrator.env_LEARNING_CALENDAR_ID env) = false →
  Orchestrator.initialize connect env w
  = (Ok None,
     with_logs w [Log ERROR "FATAL: LEARNING_CALENDAR_ID is not set.";
                  critical "Calendar ID must be provided or set in env."]).
Proof.
  intros Hcal. unfold Orchestrator.initialize, Eff.try_except, Eff.bind.
  fold (service_account_file env).
  rewrite (calendar_init_no_id (service_account_file env)
             (Orchestrator.env_LEARNING_CALENDAR_ID env) None w Hcal).
  unfold with_logs, logged. simpl. by rewrite <- app_assoc.
Qed.

Lemma initialize_refused (w : World E) e e' :
  truthy (Orchestrator.env_LEARNING_CALENDAR_ID env) = true →
  connect (service_account_file env) CalendarEventTool.SCOPES (ext w) = (Raise e, e') →
  Orchestrator.initialize connect env w
  = (Ok None,
     with_logs (connected w e')
       [Log ERROR ("Failed to initialize Google Calendar Service: " ++ exn_str e);
        critical (exn_str e)]).
Proof.
  intros Hcal Hc. unfold Orchestrator.initialize, Eff.try_except, Eff.bind.
  fold (service_account_file env).
  rewrite (calendar_init_refused (service_account_file env)
             (Orchestrator.env_LEARNING_CALENDAR_ID env) None w e e' Hcal Hc).
  unfold with_logs, logged. simpl. by rewrite <- app_assoc.
Qed.

Lemma initialize_no_twilio (w : World E) e' :
  truthy (Orchestrator.env_LEARNING_CALENDAR_ID env) = true →
  connect (service_account_file env) CalendarEventTool.SCOPES (ext w) = (Ok tt, e') →
  forallb truthy twilio_credentials = false →
  Orchestrator.initialize connect env w
  = (Ok None,
     with_logs (connected w e')
       [calendar_ready; Log ERROR "FATAL: One or more Twilio credentials are missing.";
        critical "Twilio credentials must be set."]).
Proof.
  intros Hcal Hc Htw. unfold Orchestrator.initialize, Eff.try_except, Eff.bind.
  fold (service_account_file env).
  rewrite (calendar_init_connected (service_account_file env)
             (Orchestrator.env_LEARNING_CALENDAR_ID env) None w e' Hcal Hc).
  rewrite twilio_init_missing by exact Htw.
  unfold with_logs, logged. simpl. by rewrite <- !app_assoc.
Qed.

(** X22.  Start-up never raises and never talks to the model.  It yields
    the tools exactly when the calendar id and the three Twilio credentials
    are set and the calendar credentials load; the recipient's number is
    taken as it is, set or not, and the recommendation URL falls back to the
    local default.  In every other case a CRITICAL record is logged and the
    process exits. *)
Theorem initialize_outcome (w : World E) :
  ∃ started w',
    Orchestrator.initialize connect env w = (Ok started, w')
    ∧ sent w' = sent w
    ∧ match started with
      | Some cfg =>
          cfg = config_of env
          ∧ environ_complete env = true
          ∧ ∃ e', connect (service_account_file env) CalendarEventTool.SCOPES (ext w)
                  = (Ok tt, e')
                  ∧ ext w' = e'
      | None =>
          (environ_complete env = false
           ∨ ∃ e e', connect (service_account_file env) CalendarEventTool.SCOPES (ext w)
                     = (Raise e, e'))
          ∧ ∃ e, last (logs w')
                 = Some (Log CRITICAL ("Tool Initialization Failed: " ++ exn_str e))
      end.
Proof.
  destruct (truthy (Orchestrator.env_LEARNING_CALENDAR_ID env)) eqn:Hcal.
  2: { rewrite (initialize_no_calendar_id w Hcal). eexists _, _.
       split; [reflexivity|]. split; [reflexivity|]. split.
       - left. unfold environ_complete. by rewrite Hcal.
       - exists (ValueError "Calendar ID must be provided or set in env.").
         cbn [logs with_logs]. by rewrite last_app_cons. }
  destruct (connect (service_account_file env) CalendarEventTool.SCOPES (ext w))
    as [[[]|e] e'] eqn:Hc.
  2: { rewrite (initialize_refused w e e' Hcal Hc). eexists _, _.
       split; [reflexivity|]. split; [reflexivity|]. split; [eauto|].
       exists e. cbn [logs with_logs]. by rewrite last_app_cons. }
  destruct (forallb truthy twilio_credentials) eqn:Htw.
  - assert (environ_complete env = true) as Hall.
    { unfold environ_complete. by rewrite Hcal, Htw. }
    rewrite (initialize_ok w e' Hall Hc). eexists _, _.
    split; [reflexivity|]. split; [reflexivity|]. eauto.
  - rewrite (initialize_no_twilio w e' Hcal Hc Htw). eexists _, _.
    split; [reflexivity|]. split; [reflexivity|]. split.
    + left. unfold environ_complete. by rewrite Hcal, Htw.
    + exists (ValueError "Twilio credentials must be set."). cbn [logs with_logs].
      by rewrite last_app_cons.
Qed.

End WithEnviron.
End StartupExtras.

Section ScriptExtras.
Context {E : Type} (sv : Services E)
  (connect : string → list string → E → result unit * E) (env : Orchestrator.environ).

Lemma run_agent_verdict cfg (w : World E) r w1 :
  first_reply sv cfg w r w1 →
  ∃ w', Orchestrator.run_agent sv cfg w = (Ok (verdict r), w') ∧ sent w' = sent w1.
Proof.
  intros Hfirst. rewrite (run_agent_first_reply sv cfg w r w1 Hfirst).
  pose proof (tool_loop_keeps_sent sv cfg 15 r w1) as Hsent.
  unfold verdict. destruct (function_calls r) as [|c calls] eqn:Hcalls.
  - destruct (tool_loop_text sv cfg 14 r w1 Hcalls) as (w' & Hrun).
    rewrite Hrun in *. eauto.
  - destruct (tool_loop_exhausted sv cfg 15 r w1) as (w' & Hrun & _); [congruence|].
    rewrite Hrun in *. eauto.
Qed.

(** X23.  Without a calendar id the script ends at once: it logs the fatal
    error and the CRITICAL record and exits, having read no credential,
    contacted no service and sent the model nothing. *)
Theorem script_without_calendar_id (w : World E) :
  truthy (Orchestrator.env_LEARNING_CALENDAR_ID env) = false →
  Orchestrator.script sv connect env w
  = (Ok tt,
     with_logs w
       [Log ERROR "FATAL: LEARNING_CALENDAR_ID is not set.";
        Log CRITICAL "Tool Initialization Failed: Calendar ID must be provided or set in env."]).
Proof.
  intros Hcal. unfold Orchestrator.script, Eff.bind.
  rewrite (initialize_no_calendar_id connect env w Hcal). reflexivity.
Qed.

(** X24.  With a complete environment, credentials that load and a model
    that answers, the script runs to its end: the model is sent the initial
    prompt and nothing else, and the last two log records give the final
    status and the completion mark.  The status is the text of the first
    reply when it holds no tool call, and the failure status whenever it
    holds one. *)
Theorem script_reports_final_status (w : World E) e0 e1 e2 r :
  environ_complete env = true →
  connect (service_account_file env) CalendarEventTool.SCOPES (ext w) = (Ok tt, e0) →
  chats_create sv Orchestrator.GEMINI_MODEL Orchestrator.SYSTEM_PROMPT
    Orchestrator.tools_list e0 = (Ok tt, e1) →
  send_message sv (Prompt (Orchestrator.initial_prompt (config_of env))) e1 = (Ok r, e2) →
  ∃ w' earlier,
    Orchestrator.script sv connect env w = (Ok tt, w')
    ∧ sent w' = (sent w ++ [Prompt (Orchestrator.initial_prompt (config_of env))])%list
    ∧ logs w'
      = (earlier
         ++ [Log INFO ("Final Agent Status: "
                       ++ Orchestrator.fmt (verdict r));
             Log INFO "--- Orchestration Complete ---"])%list.
Proof.
  intros Hall Hconn Hchats Hsend.
  unfold Orchestrator.script, Eff.bind.
  rewrite (initialize_ok connect env w e0 Hall Hconn).
  unfold Orchestrator.main, Eff.bind.
  set (w1 := with_logs _ _).
  set (w2 := (Eff.logger INFO "--- Starting ADK-Style Learning Agent Orchestration ---" w1).2).
  change (Eff.logger INFO "--- Starting ADK-Style Learning Agent Orchestration ---" w1)
    with (Ok tt, w2).
  destruct (run_agent_verdict (config_of env) w2 r
              (MkWorld e2 (logs w2) (GITHUB_SEARCHES w2)
                 (sent w2 ++ [Prompt (Orchestrator.initial_prompt (config_of env))])))
    as (w3 & Hrun & Hsent).
  { exists e1, e2. auto. }
  rewrite Hrun. cbn [Eff.logger]. eexists _, (logs w3). split; [reflexivity|].
  cbn [sent logs]. split; [exact Hsent|]. by rewrite <- app_assoc.
Qed.

End ScriptExtras.

(** ** The further properties on concrete runs *)

Lemma get_today_events_incomplete_item_witness :
  complete untitled_event = false
  ∧ ∃ e w', CalendarEventTool.get_today_events calendar_with_untitled
              (Orchestrator.calendar_tool Scenario.cfg) Scenario.w1 = (Ok (VList []), w')
            ∧ exn_cls e = KeyError
            ∧ last (logs w')
              = Some (Log ERROR ("Error fetching calendar events: " ++ exn_str e)).
Proof.
  split; [reflexivity|].
  apply (get_today_events_incomplete_item calendar_with_untitled
           (Orchestrator.calendar_tool Scenario.cfg) Scenario.w1
           (EventsResult (Some [Scenario.kubernetes_event; untitled_event])) 2%nat
           untitled_event).
  - vm_compute; reflexivity.
  - simpl. auto.
  - reflexivity.
Defined.

Lemma get_today_events_requests_today_witness :
  let w : World (nat * list events_query) := MkWorld (1%nat, []) [] (fun _ => 0%nat) [] in
  time_of_day_ok (DateTime 2025 3 14 9 26 53 589793)
  ∧ ∃ query,
      calendar_requests
        (CalendarEventTool.get_today_events (watched Scenario.asks_events)
           (Orchestrator.calendar_tool Scenario.cfg) w).2
      = [query]
      ∧ calendarId query = "learning@example.com"
      ∧ datetime_fields (timeMin query) = [2025; 3; 14; 0; 0; 0; 0]%Z
      ∧ datetime_fields (timeMax query) = [2025; 3; 14; 23; 59; 59; 999999]%Z
      ∧ singleEvents query = true ∧ orderBy query = "startTime"
      ∧ datetime_le (timeMin query) (DateTime 2025 3 14 9 26 53 589793)
      ∧ datetime_le (DateTime 2025 3 14 9 26 53 589793) (timeMax query).
Proof.
  intros w.
  assert (time_of_day_ok (DateTime 2025 3 14 9 26 53 589793)) as Hok.
  { unfold time_of_day_ok. simpl. lia. }
  split; [exact Hok|].
  apply (get_today_events_requests_today Scenario.asks_events
           (Orchestrator.calendar_tool Scenario.cfg) w Hok).
Defined.

Lemma score_of_bounds_witness :
  (0 <= 200)%Z
  ∧ (0 <= GitHubMcpTool.score_of (Scenario.mk_repo "b" 200) <= 115)%Q.
Proof.
  split; [lia|].
  apply (proj1 (score_of_bounds (Scenario.mk_repo "b" 200)
                  ltac:(simpl; lia) ltac:(simpl; lia))).
Defined.

Lemma score_of_monotone_witness :
  (100 <= 4000)%Z ∧ (0 <= 10)%Z
  ∧ (GitHubMcpTool.score_of (with_counts best_repo 100 0)
     <= GitHubMcpTool.score_of (with_counts best_repo 4000 10))%Q.
Proof.
  split; [lia|]. split; [lia|].
  apply (proj1 (score_of_monotone best_repo 100 4000 0 10 ltac:(lia) ltac:(lia))).
Defined.

Lemma extract_keywords_javascript_java_witness :
  GitHubMcpTool._extract_keywords "Modern JavaScript in depth" = ["javascript"; "java"]
  ∧ "java" ∈ GitHubMcpTool._extract_keywords "Modern JavaScript in depth".
Proof.
  split; [vm_compute; reflexivity|].
  apply (extract_keywords_javascript_java "Modern JavaScript in depth").
  vm_compute. left.
Defined.

Lemma extract_keywords_spec_witness :
  PyStr.isascii "Docker and Kubernetes: REST API testing" = true
  ∧ GitHubMcpTool._extract_keywords "Docker and Kubernetes: REST API testing"
    = ["api"; "docker"; "kubernetes"]
  ∧ GitHubMcpTool._extract_keywords (PyStr.upper "Docker and Kubernetes: REST API testing")
    = GitHubMcpTool._extract_keywords "Docker and Kubernetes: REST API testing".
Proof.
  split; [reflexivity|]. split; [reflexivity|].
  apply (extract_keywords_spec "Docker and Kubernetes: REST API testing" eq_refl).
Defined.

Lemma run_agent_text_witness :
  first_reply answers_in_words Scenario.cfg Scenario.w0 nothing_scheduled Scenario.w1
  ∧ (Orchestrator.run_agent answers_in_words Scenario.cfg Scenario.w0).1
    = Ok (Some "Nothing is scheduled today.").
Proof.
  assert (first_reply answers_in_words Scenario.cfg Scenario.w0 nothing_scheduled Scenario.w1)
    as Hfirst.
  { exists 0%nat, 1%nat. repeat split; vm_compute; reflexivity. }
  split; [exact Hfirst|].
  rewrite (run_agent_text answers_in_words Scenario.cfg Scenario.w0 nothing_scheduled
             Scenario.w1 Hfirst eq_refl).
  reflexivity.
Defined.

Lemma tool_loop_unknown_tools_witness :
  Orchestrator.tool_loop asks_unknown Scenario.cfg 2 (Response [Scenario.unknown_call] None)
    Scenario.w1
  = (Ok (Some "Agent planning failed: Loop iteration limit exceeded."),
     with_logs Scenario.w1
       [Log WARNING "Tool get_weather not found in map.";
        Log WARNING "Tool get_weather not found in map.";
        Log ERROR "Agent exceeded the maximum loop iterations."]).
Proof.
  apply (tool_loop_unknown_tools asks_unknown Scenario.cfg 2
           (Response [Scenario.unknown_call] None) Scenario.w1).
  - discriminate.
  - vm_compute; reflexivity.
Defined.

Lemma dispatch_get_today_events_witness :
  ∃ payload w',
    Orchestrator.dispatch_call Scenario.asks_events Scenario.cfg Scenario.events_call []
      Scenario.w1
    = (Ok ([Part "get_today_events" payload], Orchestrator.Continue), w')
    ∧ (payload = VNone
       ∨ payload = Orchestrator.error_payload
                     (types.ValidationError Scenario.asks_events (VList []))
       ∨ ∃ e, payload = Orchestrator.error_payload e ∧ exn_cls e = TypeError).
Proof.
  apply (dispatch_get_today_events Scenario.asks_events Scenario.cfg Scenario.events_call []
           Scenario.w1).
  reflexivity.
Defined.

Lemma script_without_calendar_id_witness :
  Orchestrator.script Scenario.asks_events connects environ_without_calendar Scenario.w0
  = (Ok tt,
     with_logs Scenario.w0
       [Log ERROR "FATAL: LEARNING_CALENDAR_ID is not set.";
        Log CRITICAL "Tool Initialization Failed: Calendar ID must be provided or set in env."]).
Proof.
  apply (script_without_calendar_id Scenario.asks_events connects environ_without_calendar
           Scenario.w0).
  reflexivity.
Defined.

Lemma script_reports_final_status_witness :
  environ_complete full_environ = true
  ∧ ∃ w' earlier,
      Orchestrator.script Scenario.sms_first connects full_environ Scenario.w0 = (Ok tt, w')
      ∧ sent w' = [Prompt (Orchestrator.initial_prompt (config_of full_environ))]
      ∧ logs w'
        = (earlier
           ++ [Log INFO "Final Agent Status: Agent planning failed: Loop iteration limit exceeded.";
               Log INFO "--- Orchestration Complete ---"])%list.
Proof.
  split; [reflexivity|].
  apply (script_reports_final_status Scenario.sms_first connects full_environ Scenario.w0
           1%nat 1%nat 2%nat (Response [Scenario.sms_call; Scenario.events_call] None));
    vm_compute; reflexivity.
Defined.
